(** * Planetary Computer example notebooks: a shallow embedding

    The two notebooks of the repository (Sentinel-1 GRD and HREA) are
    straight-line Python programs over third-party libraries.  The
    notebook-authored code is embedded as functions in an exception monad
    that also logs the operations performed; the remote services and the
    library calls whose result the notebooks do not compute themselves
    (catalog, raster files, plots) are the fields of a [world] record.
    Floating-point arrays are nested lists of IEEE binary64 values, with
    the arithmetic of [SpecFloat]. *)

From Stdlib Require Import String Ascii ZArith QArith Bool Lia List.
From Stdlib Require Import Sorting.Sorted Sorting.Permutation.
From Stdlib Require Import Floats.SpecFloat.
Import ListNotations.
Local Close Scope Q_scope.
Local Open Scope string_scope.
Local Open Scope list_scope.

Set Implicit Arguments.

(** ** Python exceptions and the notebook monad *)

Module Py.

Inductive exn : Type :=
| IndexError
| StopIteration
| ValueError (msg : string)
| KeyError (key : string)
| TypeError (msg : string)
| LibraryError (what : string).

Inductive result (A : Type) : Type :=
| Ok (a : A)
| Raise (e : exn).

Arguments Ok {A} a.
Arguments Raise {A} e.

Definition is_ok {A} (r : result A) : bool :=
  match r with Ok _ => true | Raise _ => false end.

(** [l[i]] on a Python list: [IndexError] out of range (only
    non-negative indices occur in the notebooks). *)
Definition getitem {A} (l : list A) (i : nat) : result A :=
  match nth_error l i with
  | Some x => Ok x
  | None => Raise IndexError
  end.

(** [next(gen)]: the generator is the list of values it has yet to
    yield. *)
Definition next {A} (gen : list A) : result (A * list A) :=
  match gen with
  | x :: rest => Ok (x, rest)
  | [] => Raise StopIteration
  end.

(** [(x,) = l]: single-element unpacking. *)
Definition unpack1 {A} (l : list A) : result A :=
  match l with
  | [] => Raise (ValueError "not enough values to unpack (expected 1, got 0)")
  | [x] => Ok x
  | _ :: _ :: _ => Raise (ValueError "too many values to unpack (expected 1)")
  end.

(** [d[k]] on a dict kept in insertion order. *)
Fixpoint dict_get {V} (d : list (string * V)) (k : string) : result V :=
  match d with
  | [] => Raise (KeyError k)
  | (k', v) :: d' => if String.eqb k' k then Ok v else dict_get d' k
  end.

(** [sub in s] on strings. *)
Fixpoint str_in (sub s : string) : bool :=
  if prefix sub s then true
  else match s with
       | EmptyString => false
       | String _ s' => str_in sub s'
       end.

End Py.
Import Py.

(** ** The data model: catalog items *)

#[warnings="-register-all"]
Inductive json : Type :=
| JStr (s : string)
| JInt (z : Z)
| JList (l : list json)
| JDict (d : list (string * json)).

(** A pystac asset: the URL is always there, the title and the roles
    are optional ([None] when the catalog does not give them). *)
Record asset : Type := {
  href : string;
  title : option string;
  roles : option (list string)
}.

Record item : Type := {
  id : string;
  properties : list (string * json);
  assets : list (string * asset)
}.

(** [item.to_dict()], restricted to the fields of [item]. *)
Definition asset_to_dict (a : asset) : json :=
  JDict ([("href", JStr (href a))]
         ++ match title a with
            | Some t => [("title", JStr t)]
            | None => []
            end
         ++ match roles a with
            | Some rs => [("roles", JList (map JStr rs))]
            | None => []
            end).

Definition to_dict (x : item) : json :=
  JDict [("id", JStr (id x));
         ("properties", JDict (properties x));
         ("assets", JDict (map (fun ka => (fst ka, asset_to_dict (snd ka))) (assets x)))].

(** ** Catalog searches *)

Inductive geometry : Type :=
| Point (lon lat : Q).

(** The keyword arguments of [catalog.search]; an absent keyword is [None]. *)
Record search_args : Type := {
  collections : list string;
  bbox : option (list Q);
  datetime : option string;
  intersects : option geometry;
  query : option (list (string * list (string * json)));
  limit : option nat
}.

Module Sentinel1Searches.

Definition bbox_of_interest : list Q :=
  [-1222751 # 10000; 475469 # 10000; -1219613 # 10000; 477458 # 10000]%Q.
Definition time_of_interest : string := "2021-01-01/2021-12-31".

(** Cell 3. *)
Definition search_area : search_args :=
  {| collections := ["sentinel-1-grd"];
     bbox := Some bbox_of_interest;
     datetime := Some time_of_interest;
     intersects := None;
     query := None;
     limit := None |}.

(** Cell 13. *)
Definition search_mode : search_args :=
  {| collections := ["sentinel-1-grd"];
     bbox := None;
     datetime := None;
     intersects := None;
     query := Some [("sar:instrument_mode", [("eq", JStr "SM")]);
                    ("sar:polarizations", [("eq", JList [JStr "VV"; JStr "VH"])])];
     limit := Some 5%nat |}.

End Sentinel1Searches.

Module HreaSearches.

Definition area_of_interest : geometry :=
  Point (424841 # 10000) (117101 # 10000).

(** Cell 3. *)
Definition search_2019 : search_args :=
  {| collections := ["hrea"];
     bbox := None;
     datetime := Some "2019-12-31";
     intersects := Some area_of_interest;
     query := None;
     limit := None |}.

(** Cell 8. *)
Definition search_years : search_args :=
  {| collections := ["hrea"];
     bbox := None;
     datetime := Some "2012-12-31/2019-12-31";
     intersects := Some area_of_interest;
     query := None;
     limit := None |}.

End HreaSearches.



(** ** IEEE binary64 values (Python [float], numpy [float64]) *)

Module F64.

Definition prec : Z := 53.
Definition emax : Z := 1024.

Definition float : Type := spec_float.

Definition nan : float := S754_nan.
Definition zero : float := S754_zero false.
Definition neg_inf : float := S754_infinity true.
Definition pos_inf : float := S754_infinity false.

(** An integer literal, rounded to nearest even. *)
Definition of_Z (z : Z) : float := binary_normalize prec emax z 0 false.

Definition one : float := of_Z 1.

Definition is_nan (x : float) : bool :=
  match x with S754_nan => true | _ => false end.

Definition div : float -> float -> float := SFdiv prec emax.
Definition mul : float -> float -> float := SFmul prec emax.
Definition sqrt : float -> float := SFsqrt prec emax.
Definition ltb : float -> float -> bool := SFltb.
Definition leb : float -> float -> bool := SFleb.
Definition eqb : float -> float -> bool := SFeqb.

End F64.

(** ** numpy / xarray element operations used by the notebooks *)

Module Np.
Import F64.

(** numpy's [_NPY_MAX] and [_NPY_MIN] for floating types: a NaN first
    argument is returned as it is. *)
Definition npy_max (a b : float) : float :=
  if is_nan a then a else if ltb b a then a else b.

Definition npy_min (a b : float) : float :=
  if is_nan a then a else if ltb a b then a else b.

(** [np.clip(x, lo, hi)] on one element. *)
Definition clip (lo hi x : float) : float :=
  npy_min (npy_max x lo) hi.

(** [.where(lambda x: x > 0)] on one element: kept where the condition
    holds, NaN elsewhere. *)
Definition where_pos (x : float) : float :=
  if ltb zero x then x else nan.

(** Floating-point status raised by an elementwise function. *)
Inductive fpstatus : Type :=
| FpOk
| FpInvalid
| FpDivideByZero.

(** [np.sqrt]: invalid on a negative argument. *)
Definition sqrt_status (x : float) : fpstatus :=
  if ltb x zero then FpInvalid else FpOk.

Definition np_sqrt (x : float) : float := sqrt x.

Section Log10.
(** The value of the C library's [log10] on a positive argument. *)
Variable log10_pos : float -> float.

(** [np.log10]: invalid on a negative argument, divide-by-zero
    (result -inf) on zero. *)
Definition log10_status (x : float) : fpstatus :=
  if is_nan x then FpOk
  else if ltb x zero then FpInvalid
  else if eqb x zero then FpDivideByZero
  else FpOk.

Definition np_log10 (x : float) : float :=
  if is_nan x then nan
  else if ltb x zero then nan
  else if eqb x zero then neg_inf
  else log10_pos x.
End Log10.

End Np.

(** ** Arrays *)

Module Arr.
Import F64.

(** A two-dimensional array (y, x) and a three-dimensional one
    (band, y, x), row-major. *)
Definition grid : Type := list (list float).
Definition cube : Type := list grid.

Definition grid_map (f : float -> float) (a : grid) : grid :=
  map (map f) a.

Definition cube_map (f : float -> float) (a : cube) : cube :=
  map (grid_map f) a.

Fixpoint zip_with {A B C} (f : A -> B -> C) (l : list A) (m : list B) : list C :=
  match l, m with
  | x :: l', y :: m' => f x y :: zip_with f l' m'
  | _, _ => []
  end.

(** Elementwise binary operation on two arrays over the same grid. *)
Definition grid_map2 (f : float -> float -> float) (a b : grid) : grid :=
  zip_with (zip_with f) a b.

Definition get2 (a : grid) (i j : nat) : option float :=
  match nth_error a i with
  | Some row => nth_error row j
  | None => None
  end.

Definition get3 (a : cube) (b i j : nat) : option float :=
  match nth_error a b with
  | Some g => get2 g i j
  | None => None
  end.

(** [.data.ravel()] of a two-dimensional array. *)
Definition ravel (a : grid) : list float := List.concat a.

(** [np.flip(a, axis=(1, 2))]. *)
Definition flip_1_2 (a : cube) : cube :=
  map (fun g => rev (map (@rev float) g)) a.

(** Every band has [h] rows of [w] values. *)
Definition has_shape (h w : nat) (a : cube) : Prop :=
  Forall (fun g => length g = h /\ Forall (fun row => length row = w) g) a.

(** [l[lo : lo + len]]. *)
Definition slice {A} (lo len : nat) (l : list A) : list A :=
  firstn len (skipn lo l).

End Arr.

(** ** The transforms authored in the Sentinel-1 notebook *)

Module Sentinel1Transforms.
Import F64 Np Arr.

(** Cell 10: [r = vv / 600], [g = vh / 270], [b = (vv / vh) / 9]. *)
Definition red (vv : grid) : grid := grid_map (fun x => div x (of_Z 600)) vv.
Definition green (vh : grid) : grid := grid_map (fun x => div x (of_Z 270)) vh.
Definition blue (vv vh : grid) : grid :=
  grid_map (fun x => div x (of_Z 9)) (grid_map2 div vv vh).

(** [xr.concat([r, g, b], dim="band").clip(0, 1).where(lambda x: x > 0)].
    The two arrays are the vv and vh assets of one item at one overview
    level, over the same grid: xarray pairs their pixels by coordinate
    label, which on one grid is by position. *)
Definition composite (vv vh : grid) : cube :=
  cube_map where_pos (cube_map (clip (of_Z 0) (of_Z 1)) [red vv; green vh; blue vv vh]).

(** Cell 12: [np.flip(data, axis=(1, 2)).clip(0, 1)]. *)
Definition flipped (data : cube) : cube :=
  cube_map (clip (of_Z 0) (of_Z 1)) (flip_1_2 data).

(** Cell 8: the data frame of power, amplitude and dB values. *)
Record frame_row : Type := {
  power : float;
  amplitude : float;
  dB : float
}.

Definition raw_values (vv : grid) : list float :=
  ravel (grid_map where_pos vv).

Fixpoint data_frame (power amplitude dB : list float) : list frame_row :=
  match power, amplitude, dB with
  | p :: ps, a :: as_, d :: ds =>
      {| power := p; amplitude := a; dB := d |} :: data_frame ps as_ ds
  | _, _, _ => []
  end.

Definition row_has_nan (r : frame_row) : bool :=
  is_nan (power r) || is_nan (amplitude r) || is_nan (dB r).

Definition dropna (rows : list frame_row) : list frame_row :=
  filter (fun r => negb (row_has_nan r)) rows.

(** [.melt(value_vars=["power", "amplitude", "dB"], var_name="kind")]. *)
Definition melt (rows : list frame_row) : list (string * float) :=
  map (fun r => ("power", power r)) rows
  ++ map (fun r => ("amplitude", amplitude r)) rows
  ++ map (fun r => ("dB", dB r)) rows.

(** One elementwise evaluation of a numpy function: the function, the
    argument it received and the floating-point status it raised. *)
Inductive ufunc : Type :=
| Sqrt
| Log10.

Record ufunc_call : Type := {
  fn : ufunc;
  arg : float;
  status : fpstatus
}.

Section Frame.
Variable log10_pos : float -> float.

Definition ufunc_value (f : ufunc) (x : float) : float :=
  match f with
  | Sqrt => np_sqrt x
  | Log10 => np_log10 log10_pos x
  end.

Definition ufunc_status (f : ufunc) (x : float) : fpstatus :=
  match f with
  | Sqrt => sqrt_status x
  | Log10 => log10_status x
  end.

(** [np.sqrt(a)] or [np.log10(a)] on a flat array: the values, and the
    evaluations made. *)
Definition apply_ufunc (f : ufunc) (a : list float) : list float * list ufunc_call :=
  (map (ufunc_value f) a,
   map (fun x => {| fn := f; arg := x; status := ufunc_status f x |}) a).

(** [raw = vv.where(lambda x: x > 0).data.ravel()] and the data frame
    built from [raw], [np.sqrt(raw)] and [10 * np.log10(raw)], together
    with the evaluations of the two functions. *)
Definition frame_eval (vv : grid) : list frame_row * list ufunc_call :=
  let raw := raw_values vv in
  let amplitudes := apply_ufunc Sqrt raw in
  let logs := apply_ufunc Log10 raw in
  (data_frame raw (fst amplitudes) (map (mul (of_Z 10)) (fst logs)),
   snd amplitudes ++ snd logs).

Definition wide_frame (vv : grid) : list frame_row := fst (frame_eval vv).


Definition df (vv : grid) : list (string * float) :=
  melt (dropna (wide_frame vv)).
End Frame.

End Sentinel1Transforms.

(** ** Item selection and window reading authored in the HREA notebook *)

Module HreaSteps.
Import Arr.

Definition is_djibouti (x : item) : bool := str_in "Djibouti" (id x).

(** Cell 4: [(item,) = [x for x in items if "Djibouti" in x.id]]. *)
Definition select_djibouti (items : list item) : result item :=
  unpack1 (filter is_djibouti items).

(** [f"{asset.title}"]: a missing title is formatted as "None". *)
Definition title_text (a : asset) : string :=
  match title a with
  | Some t => t
  | None => "None"
  end.

(** Cell 4: [[f"{key}: {asset.title}" for key, asset in
    item.assets.items() if "data" in asset.roles]].  On an asset without
    roles the test ["data" in None] raises [TypeError]. *)
Fixpoint data_assets_of (l : list (string * asset)) : result (list string) :=
  match l with
  | [] => Ok []
  | (key, a) :: l' =>
      match roles a with
      | None => Raise (TypeError "argument of type 'NoneType' is not iterable")
      | Some rs =>
          match data_assets_of l' with
          | Ok lines =>
              Ok (if existsb (String.eqb "data") rs
                  then (key ++ ": " ++ title_text a)%string :: lines
                  else lines)
          | Raise e => Raise e
          end
      end
  end.

Definition data_assets (x : item) : result (list string) :=
  data_assets_of (assets x).

(** Cell 8: [[item.to_dict() for item in search.get_items()
    if "Djibouti" in item.id]]. *)
Definition djibouti_dicts (items : list item) : list json :=
  map to_dict (filter is_djibouti items).

Record window : Type := {
  col_off : nat;
  row_off : nat;
  width : nat;
  height : nat
}.

Definition grid_pos : Type := (nat * nat)%type.

(** rasterio's [block_windows] for a dataset of the given height and
    width stored in blocks of [bh] by [bw]: row-major over the block
    grid, the last block of each row and column truncated. *)
Definition block_count (n b : nat) : nat :=
  n / b + (if n mod b =? 0 then 0 else 1)%nat.

Definition block_windows (ds_height ds_width bh bw : nat)
  : list (grid_pos * window) :=
  flat_map
    (fun j =>
       map (fun i =>
              ((j, i),
               {| col_off := i * bw;
                  row_off := j * bh;
                  width := Nat.min bw (ds_width - i * bw);
                  height := Nat.min bh (ds_height - j * bh) |}))
           (seq 0 (block_count ds_width bw)))
    (seq 0 (block_count ds_height bh)).

(** The windows printed by cell 6 for the Djibouti light-composite file. *)
Definition recorded_windows : list (grid_pos * window) :=
  [((0, 0), {| col_off := 0; row_off := 0; width := 256; height := 256 |});
   ((0, 1), {| col_off := 256; row_off := 0; width := 142; height := 256 |});
   ((1, 0), {| col_off := 0; row_off := 256; width := 256; height := 165 |});
   ((1, 1), {| col_off := 256; row_off := 256; width := 142; height := 165 |})]%nat.

(** rioxarray's [isel_window]: the rows and columns of the window, in
    every band. *)
Definition isel_window (w : window) (a : cube) : cube :=
  map (fun g => map (slice (col_off w) (width w)) (slice (row_off w) (height w) g)) a.

Definition i_window : nat := 2.

(** Cell 6: [_, window = windows[i_window]] followed by
    [section = data_array.rio.isel_window(window)]. *)
Definition select_window (windows : list (grid_pos * window)) : result window :=
  match getitem windows i_window with
  | Ok (_, window) => Ok window
  | Raise e => Raise e
  end.

Definition read_section (windows : list (grid_pos * window)) (data_array : cube)
  : result cube :=
  match select_window windows with
  | Ok window => Ok (isel_window window data_array)
  | Raise e => Raise e
  end.

End HreaSteps.

(** ** Notebook execution: exceptions plus a log of operations *)

Inductive event : Type :=
| Configure                 (* Client.open with the signing modifier *)
| Search (n : nat)          (* the n-th catalog.search call of the notebook *)
| Select (n : nat)          (* item selection from the results of search n *)
| OpenRaster (n : nat)      (* a raster asset of the item of search n is opened *)
| Transform (v : string)    (* a numeric transform or slice producing v *)
| Plot (v : string)         (* the plot that renders v *)
| Show (v : string).        (* display of an untransformed raster or preview *)

Module Nb.

(** A cell computation: given the operations performed so far, an
    outcome and the operations performed up to it. *)
Definition nb (A : Type) : Type := list event -> result A * list event.

Definition ret {A} (a : A) : nb A := fun t => (Ok a, t).

Definition bind {A B} (m : nb A) (k : A -> nb B) : nb B :=
  fun t =>
    match m t with
    | (Ok a, t') => k a t'
    | (Raise e, t') => (Raise e, t')
    end.

Definition emit (e : event) : nb unit := fun t => (Ok tt, t ++ [e]).

Definition lift {A} (r : result A) : nb A := fun t => (r, t).

Definition run {A} (m : nb A) : result A * list event := m [].

Definition outcome {A} (m : nb A) : result A := fst (run m).
Definition trace {A} (m : nb A) : list event := snd (run m).

End Nb.
Import Nb.

Notation "x <- m ;; k" := (bind m (fun x => k))
  (at level 61, m at next level, right associativity).
Notation "m ;;; k" := (bind m (fun _ => k))
  (at level 61, right associativity).

(** The services and libraries outside the repository. *)
Record world : Type := {
  (** the items matched by a catalog search, in the order returned *)
  stac_search : search_args -> list item;
  (** [rioxarray.open_rasterio(href, overview_level=n).astype(float).squeeze()]
      on a single-band file *)
  open_overview : string -> nat -> result Arr.grid;
  (** [rioxarray.open_rasterio(href)] *)
  open_rasterio : string -> result Arr.cube;
  (** [list(src.block_windows())] of the file at a URL *)
  file_block_windows : string -> result (list (HreaSteps.grid_pos * HreaSteps.window));
  (** [stackstac.stack(items, ...).squeeze().compute().quantile(0.9, ...)] *)
  stack_quantile : list json -> result (list F64.float);
  (** [section.sel(x=slice(...), y=slice(...))]: selection by coordinates *)
  sel_region : Arr.cube -> result Arr.cube;
  (** [sns.FacetGrid(df, ...).map(sns.histplot, "value", bins=30)] *)
  facet_hist : list (string * F64.float) -> result unit;
  (** [a.plot.imshow(rgb=..., size=12)] *)
  imshow : option string -> Arr.cube -> result unit;
  (** [rasterio.plot.show(a, ..., title=...)] *)
  show : Arr.cube -> string -> result unit;
  (** [dikhil.plot(ax=ax)] *)
  line_plot : list F64.float -> result unit;
  (** the C library's [log10] on positive arguments *)
  log10_pos : F64.float -> F64.float
}.

(** The same world with another catalog content. *)
Definition with_search (w : world) (f : search_args -> list item) : world :=
  {| stac_search := f;
     open_overview := open_overview w;
     open_rasterio := open_rasterio w;
     file_block_windows := file_block_windows w;
     stack_quantile := stack_quantile w;
     sel_region := sel_region w;
     facet_hist := facet_hist w;
     imshow := imshow w;
     show := show w;
     line_plot := line_plot w;
     log10_pos := log10_pos w |}.

Definition asset_href (x : item) (key : string) : result string :=
  match dict_get (assets x) key with
  | Ok a => Ok (href a)
  | Raise e => Raise e
  end.

Module Sentinel1Notebook.
Import Sentinel1Searches Sentinel1Transforms.

(** The arrays bound by cells 7 to 12. *)
Record arrays : Type := {
  v_vv : Arr.grid;
  v_vh : Arr.grid;
  v_df : list (string * F64.float);
  v_data : Arr.cube;
  v_flipped : Arr.cube
}.

(** The bindings at the end of the notebook; [v_item] is the item bound
    by cell 13, [v_first_item] the one cells 4 to 12 worked on. *)
Record vars : Type := {
  v_first_item : item;
  v_arrays : arrays;
  v_item : item
}.

(** Cells 2 to 4: open the catalog, search the area, take [items[0]] and
    show its rendered preview.  The [print] of [len(items)] in cell 3
    writes to the cell output only. *)
Definition select_first (w : world) : nb item :=
  emit Configure ;;;
  emit (Search 1) ;;;
  items <- ret (stac_search w search_area) ;;
  emit (Select 1) ;;;
  item <- lift (getitem items 0) ;;
  _ <- lift (asset_href item "rendered_preview") ;;
  emit (Show "rendered_preview") ;;;
  ret item.

(** Cells 5 to 12, on the selected item.  Cell 5 only lays the sorted
    properties out in a table; cells 6 and 11 read one property each.
    Every plot is a library call that may raise. *)
Definition process_item (w : world) (item : item) : nb arrays :=
  _ <- lift (dict_get (properties item) "sar:polarizations") ;;
  vv_href <- lift (asset_href item "vv") ;;
  emit (OpenRaster 1) ;;;
  vv <- lift (open_overview w vv_href 2) ;;
  vh_href <- lift (asset_href item "vh") ;;
  emit (OpenRaster 1) ;;;
  vh <- lift (open_overview w vh_href 2) ;;
  emit (Transform "df") ;;;
  frame <- ret (df (log10_pos w) vv) ;;
  _ <- lift (facet_hist w frame) ;;
  emit (Plot "df") ;;;
  emit (Transform "data") ;;;
  data <- ret (composite vv vh) ;;
  _ <- lift (imshow w (Some "band") data) ;;
  emit (Plot "data") ;;;
  _ <- lift (dict_get (properties item) "sat:orbit_state") ;;
  emit (Transform "flipped") ;;;
  flip <- ret (flipped data) ;;
  _ <- lift (imshow w None flip) ;;
  emit (Plot "flipped") ;;;
  ret {| v_vv := vv; v_vh := vh; v_df := frame;
         v_data := data; v_flipped := flip |}.

(** Cell 13: search by instrument mode, take [next(gen)]. *)
Definition select_mode (w : world) : nb item :=
  emit (Search 2) ;;;
  gen <- ret (stac_search w search_mode) ;;
  emit (Select 2) ;;;
  yielded <- lift (next gen) ;;
  _ <- lift (asset_href (fst yielded) "rendered_preview") ;;
  emit (Show "rendered_preview") ;;;
  ret (fst yielded).

Definition cells_1_12 (w : world) : nb (item * arrays) :=
  item <- select_first w ;;
  arrs <- process_item w item ;;
  ret (item, arrs).

Definition notebook (w : world) : nb vars :=
  done <- cells_1_12 w ;;
  item' <- select_mode w ;;
  ret {| v_first_item := fst done; v_arrays := snd done; v_item := item' |}.

End Sentinel1Notebook.

Module HreaNotebook.
Import HreaSearches HreaSteps.

(** The bindings of cells 4 to 7. *)
Record rasters : Type := {
  v_data_assets : list string;
  v_data_array : Arr.cube;
  v_section : Arr.cube
}.

(** The bindings at the end of the notebook; [v_items] is the list bound
    by cell 8. *)
Record vars : Type := {
  v_item : item;
  v_rasters : rasters;
  v_items : list json;
  v_dikhil : list F64.float
}.

(** Cells 2 to 4: open the catalog, search, unpack the Djibouti item. *)
Definition select_item (w : world) : nb item :=
  emit Configure ;;;
  emit (Search 1) ;;;
  items <- ret (stac_search w search_2019) ;;
  emit (Select 1) ;;;
  lift (select_djibouti items).

(** Cells 4 to 7, on the selected item: list the data assets, open the
    light-composite raster and show it, read the window at [i_window],
    plot it and the region selected from it by coordinates.  Every plot
    and the selection by coordinates are library calls that may raise. *)
Definition process_item (w : world) (item : item) : nb rasters :=
  assets_list <- lift (data_assets item) ;;
  url <- lift (asset_href item "light-composite") ;;
  emit (OpenRaster 1) ;;;
  data_array <- lift (open_rasterio w url) ;;
  _ <- lift (show w data_array "Djibouti (2019)") ;;
  emit (Show "data_array") ;;;
  emit (OpenRaster 1) ;;;
  windows <- lift (file_block_windows w url) ;;
  emit (Transform "section") ;;;
  section <- lift (read_section windows data_array) ;;
  _ <- lift (show w section "Reading a single window") ;;
  emit (Plot "section") ;;;
  region <- lift (sel_region w section) ;;
  emit (Transform "section.sel") ;;;
  _ <- lift (show w region "Dikhil (2019)") ;;
  emit (Plot "section.sel") ;;;
  ret {| v_data_assets := assets_list;
         v_data_array := data_array; v_section := section |}.

(** Cells 8 to 10: search the years, keep the Djibouti items, stack. *)
Definition change_over_time (w : world) : nb (list json * list F64.float) :=
  emit (Search 2) ;;;
  found <- ret (stac_search w search_years) ;;
  emit (Select 2) ;;;
  items <- ret (djibouti_dicts found) ;;
  emit (OpenRaster 2) ;;;
  emit (Transform "dikhil") ;;;
  dikhil <- lift (stack_quantile w items) ;;
  _ <- lift (line_plot w dikhil) ;;
  emit (Plot "dikhil") ;;;
  ret (items, dikhil).

Definition notebook (w : world) : nb vars :=
  item <- select_item w ;;
  rs <- process_item w item ;;
  later <- change_over_time w ;;
  ret {| v_item := item; v_rasters := rs;
         v_items := fst later; v_dikhil := snd later |}.

End HreaNotebook.

(** ** Cell 5 of the Sentinel-1 notebook: the table of properties *)

Module Sentinel1Table.

(** [sorted(d.items())] on a dict: the keys are unique, so the order of
    the pairs is decided by the keys, compared as strings; the sort is
    stable. *)
Fixpoint insert_item (kv : string * json) (l : list (string * json))
  : list (string * json) :=
  match l with
  | [] => [kv]
  | kv' :: l' =>
      if String.leb (fst kv) (fst kv') then kv :: l else kv' :: insert_item kv l'
  end.

Definition sorted_items (d : list (string * json)) : list (string * json) :=
  fold_right insert_item [] d.

Section Table.
(** Python's [str] on a property value. *)
Variable str : json -> string.

(** The rows added by [table.add_row(k, str(v))]. *)
Definition table_rows (d : list (string * json)) : list (string * string) :=
  map (fun kv => (fst kv, str (snd kv))) (sorted_items d).
End Table.

End Sentinel1Table.

(** ** Sample inputs *)

Module Samples.
Import F64.

Definition tif (name : string) : asset :=
  {| href := "https://example.test/" ++ name ++ ".tif";
     title := Some name;
     roles := Some ["data"] |}.

Definition png : asset :=
  {| href := "https://example.test/preview.png";
     title := Some "Rendered preview";
     roles := Some ["overview"] |}.

Definition grd_item (name : string) : item :=
  {| id := name;
     properties := [("sar:polarizations", JList [JStr "VV"; JStr "VH"]);
                    ("sat:orbit_state", JStr "descending")];
     assets := [("vv", tif "vv"); ("vh", tif "vh"); ("rendered_preview", png)] |}.

Definition hrea_item (name : string) : item :=
  {| id := name;
     properties := [];
     assets := [("lightscore", tif "lightscore");
                ("light-composite", tif "light-composite");
                ("rendered_preview", png)] |}.

Definition djibouti_2019 : item := hrea_item "HREA_Djibouti_2019".
Definition djibouti_2018 : item := hrea_item "HREA_Djibouti_2018".
Definition ethiopia_2019 : item := hrea_item "HREA_Ethiopia_2019".

(** A 2 x 2 polarization pair with a zero, a small and a large count. *)
Definition vv : Arr.grid :=
  [[of_Z 300; of_Z 0]; [of_Z 1200; of_Z 90]].
Definition vh : Arr.grid :=
  [[of_Z 135; of_Z 0]; [of_Z 27; of_Z 0]].

Definition light : Arr.cube :=
  [[[of_Z 1; of_Z 2; of_Z 3]; [of_Z 4; of_Z 5; of_Z 6]]].

Definition small_windows : list (HreaSteps.grid_pos * HreaSteps.window) :=
  HreaSteps.block_windows 2 3 1 2.

(** A 4 x 4 single-band raster stored in 2 x 2 blocks. *)
Definition light_tile : Arr.cube :=
  [[[of_Z 1; of_Z 2; of_Z 3; of_Z 4]; [of_Z 5; of_Z 6; of_Z 7; of_Z 8];
    [of_Z 9; of_Z 10; of_Z 11; of_Z 12]; [of_Z 13; of_Z 14; of_Z 15; of_Z 16]]].

Definition tile_windows : list (HreaSteps.grid_pos * HreaSteps.window) :=
  HreaSteps.block_windows 4 4 2 2.

(** Plot stand-ins that refuse what the libraries refuse: a histogram
    grid of an empty frame, an image with fewer than two rows or
    columns. *)
Definition facet_hist_stub (d : list (string * float)) : result unit :=
  match d with
  | [] => Raise (ValueError "FacetGrid of an empty frame")
  | _ :: _ => Ok tt
  end.

Definition show_stub (a : Arr.cube) (title : string) : result unit :=
  if forallb (fun g => Nat.leb 2 (length g)
                       && forallb (fun row => Nat.leb 2 (length row)) g) a
  then Ok tt
  else Raise (TypeError "Invalid shape for image data").

(** A stand-in for [log10]; only its being a function matters. *)
Definition log10_stub (x : float) : float := x.

(** A catalog answering all four searches. *)
Definition catalog (s : search_args) : list item :=
  match collections s, query s, datetime s with
  | ["sentinel-1-grd"], Some _, _ => [grd_item "S1A_S3_mode"]
  | ["sentinel-1-grd"], None, _ => [grd_item "S1B_first"; grd_item "S1B_second"]
  | ["hrea"], _, Some "2019-12-31" => [ethiopia_2019; djibouti_2019]
  | ["hrea"], _, _ => [djibouti_2018; ethiopia_2019; djibouti_2019]
  | _, _, _ => []
  end.

Definition world_ok : world :=
  {| stac_search := catalog;
     open_overview := fun url _ =>
       if String.eqb url (href (tif "vv")) then Ok vv else Ok vh;
     open_rasterio := fun _ => Ok light_tile;
     file_block_windows := fun _ => Ok tile_windows;
     stack_quantile := fun items => Ok (map (fun _ => one) items);
     sel_region := fun section => Ok section;
     facet_hist := facet_hist_stub;
     imshow := fun _ _ => Ok tt;
     show := show_stub;
     line_plot := fun _ => Ok tt;
     log10_pos := log10_stub |}.

(** The same catalog with further items after the first. *)
Definition catalog_more (s : search_args) : list item :=
  match catalog s with
  | [] => []
  | x :: rest => x :: rest ++ [grd_item "S1A_extra"; ethiopia_2019]
  end.

(** The same catalog without a match for property queries. *)
Definition catalog_no_mode (s : search_args) : list item :=
  match query s with
  | Some _ => []
  | None => catalog s
  end.

Definition world_no_mode : world := with_search world_ok catalog_no_mode.
Definition world_empty : world := with_search world_ok (fun _ => []).

End Samples.

(** ** Sample inputs for the failure paths *)

Module FailureSamples.

(** A GRD item acquired in a single polarization: no [vv] asset. *)
Definition hh_item : item :=
  {| id := "S1A_EW_GRDM_1SSH";
     properties := [("sar:polarizations", JList [JStr "HH"]);
                    ("sat:orbit_state", JStr "ascending")];
     assets := [("hh", Samples.tif "hh"); ("rendered_preview", Samples.png)] |}.

Definition world_hh : world :=
  with_search Samples.world_ok (fun _ => [hh_item]).

(** A file stored as two blocks only. *)
Definition two_windows : list (HreaSteps.grid_pos * HreaSteps.window) :=
  HreaSteps.block_windows 2 3 2 2.

Definition world_two_blocks : world :=
  {| stac_search := Samples.catalog;
     open_overview := open_overview Samples.world_ok;
     open_rasterio := fun _ => Ok Samples.light;
     file_block_windows := fun _ => Ok two_windows;
     stack_quantile := stack_quantile Samples.world_ok;
     sel_region := sel_region Samples.world_ok;
     facet_hist := facet_hist Samples.world_ok;
     imshow := imshow Samples.world_ok;
     show := show Samples.world_ok;
     line_plot := line_plot Samples.world_ok;
     log10_pos := log10_pos Samples.world_ok |}.

(** A window reaching past the right and bottom edges of [Samples.light]. *)
Definition edge_window : HreaSteps.window :=
  {| HreaSteps.col_off := 2; HreaSteps.row_off := 1;
     HreaSteps.width := 2; HreaSteps.height := 2 |}.

(** An asset the catalog lists without roles. *)
Definition no_roles : asset :=
  {| href := "https://example.test/thumbnail.png";
     title := None;
     roles := None |}.

Definition unlabelled_djibouti : item :=
  {| id := "HREA_Djibouti_2019";
     properties := [];
     assets := [("light-composite", Samples.tif "light-composite");
                ("thumbnail", no_roles)] |}.

Definition world_unlabelled : world :=
  with_search Samples.world_ok (fun _ => [unlabelled_djibouti]).

(** Polarization rasters without a strictly positive pixel. *)
Definition dark : Arr.grid := [[F64.of_Z 0; F64.of_Z 0]; [F64.of_Z 0; F64.of_Z 0]].

Definition world_dark : world :=
  {| stac_search := Samples.catalog;
     open_overview := fun _ _ => Ok dark;
     open_rasterio := open_rasterio Samples.world_ok;
     file_block_windows := file_block_windows Samples.world_ok;
     stack_quantile := stack_quantile Samples.world_ok;
     sel_region := sel_region Samples.world_ok;
     facet_hist := facet_hist Samples.world_ok;
     imshow := imshow Samples.world_ok;
     show := show Samples.world_ok;
     line_plot := line_plot Samples.world_ok;
     log10_pos := log10_pos Samples.world_ok |}.

(** A Djibouti item published without the light composite. *)
Definition bare_djibouti : item :=
  {| id := "HREA_Djibouti_2019";
     properties := [];
     assets := [("lightscore", Samples.tif "lightscore")] |}.

Definition world_bare : world :=
  with_search Samples.world_ok (fun _ => [Samples.ethiopia_2019; bare_djibouti]).

Definition sample_properties : list (string * json) :=
  [("sat:orbit_state", JStr "descending"); ("constellation", JStr "Sentinel-1");
   ("sar:polarizations", JList [JStr "VV"; JStr "VH"]); ("platform", JStr "SENTINEL-1B")].

End FailureSamples.

(** * Properties *)

(** ** Strings and lists *)

Lemma prefix_app (sub s : string) :
  prefix sub s = true <-> exists post, s = (sub ++ post)%string.
Proof.
  revert s; induction sub as [|a sub IH]; intros s.
  - split; [intros _; exists s; reflexivity | intros _; destruct s; reflexivity].
  - destruct s as [|b s]; simpl.
    + split; [discriminate | intros [post H]; discriminate].
    + destruct (ascii_dec a b) as [->|Hab].
      * rewrite IH. split; intros [post H]; exists post.
        -- now rewrite H.
        -- now inversion H.
      * split; [discriminate | intros [post H]; inversion H; congruence].
Qed.

Lemma str_in_spec (sub s : string) :
  str_in sub s = true <-> exists pre post, s = (pre ++ sub ++ post)%string.
Proof.
  induction s as [|c s IH].
  - cbn [str_in]. destruct (prefix sub "") eqn:Hp.
    + split; [intros _ | reflexivity].
      apply prefix_app in Hp as [post Hp]. now exists "", post.
    + split; [discriminate|]. intros (pre & post & H).
      destruct pre; [|discriminate]. simpl in H.
      assert (prefix sub "" = true) by (apply prefix_app; now exists post).
      congruence.
  - cbn [str_in]. destruct (prefix sub (String c s)) eqn:Hp.
    + split; [intros _ | reflexivity].
      apply prefix_app in Hp as [post Hp]. now exists "", post.
    + rewrite IH. split.
      * intros (pre & post & ->). now exists (String c pre), post.
      * intros (pre & post & H). destruct pre as [|c' pre].
        -- simpl in H.
           assert (prefix sub (String c s) = true) by (apply prefix_app; now exists post).
           congruence.
        -- inversion H; subst. now exists pre, post.
Qed.

Lemma unpack1_ok {A} (l : list A) (x : A) :
  unpack1 l = Ok x <-> l = [x].
Proof.
  destruct l as [|a [|b l]]; simpl; split; intros H;
    try discriminate; now inversion H.
Qed.

Lemma unpack1_raise {A} (l : list A) :
  length l <> 1 <-> exists msg, unpack1 l = Raise (ValueError msg).
Proof.
  destruct l as [|a [|b l]]; simpl; split.
  - intros _. eexists; reflexivity.
  - intros _; lia.
  - intros H; now contradiction H.
  - intros [msg H]; discriminate.
  - intros _. eexists; reflexivity.
  - intros _; lia.
Qed.

(** ** Exceptions are never caught *)

Lemma bind_raise {A B} (m : nb A) (k : A -> nb B) (t t' : list event) (e : exn) :
  m t = (Raise e, t') -> bind m k t = (Raise e, t').
Proof. unfold bind. now intros ->. Qed.

Lemma bind_ok {A B} (m : nb A) (k : A -> nb B) (t t' : list event) (a : A) :
  m t = (Ok a, t') -> bind m k t = k a t'.
Proof. unfold bind. now intros ->. Qed.

(** **** C1 *)

(** C1: when a catalog search yields no item, the item selection that
    follows it raises ([IndexError] for [items[0]], [StopIteration] for
    [next(gen)], [ValueError] for the single-element unpacking), and the
    exception is the outcome of the whole notebook: nothing catches it. *)
Theorem C1_empty_search_raises (w : world) :
  (stac_search w Sentinel1Searches.search_area = [] ->
   outcome (Sentinel1Notebook.notebook w) = Raise IndexError) /\
  (stac_search w Sentinel1Searches.search_mode = [] ->
   forall done t, run (Sentinel1Notebook.cells_1_12 w) = (Ok done, t) ->
   outcome (Sentinel1Notebook.notebook w) = Raise StopIteration) /\
  (stac_search w HreaSearches.search_2019 = [] ->
   outcome (HreaNotebook.notebook w)
   = Raise (ValueError "not enough values to unpack (expected 1, got 0)")).
Proof.
  split; [|split].
  - intros H. unfold outcome, run, Sentinel1Notebook.notebook.
    erewrite bind_raise; [reflexivity|].
    unfold Sentinel1Notebook.cells_1_12.
    erewrite bind_raise; [reflexivity|].
    unfold Sentinel1Notebook.select_first, bind, emit, ret, lift.
    rewrite H. reflexivity.
  - intros H done t Hrun. unfold outcome, run, Sentinel1Notebook.notebook in *.
    erewrite bind_ok by exact Hrun.
    erewrite bind_raise; [reflexivity|].
    unfold Sentinel1Notebook.select_mode, bind, emit, ret, lift.
    rewrite H. reflexivity.
  - intros H. unfold outcome, run, HreaNotebook.notebook.
    erewrite bind_raise; [reflexivity|].
    unfold HreaNotebook.select_item, bind, emit, ret, lift.
    rewrite H. reflexivity.
Qed.

Lemma C1_empty_search_raises_witness :
  outcome (Sentinel1Notebook.notebook Samples.world_empty) = Raise IndexError /\
  outcome (Sentinel1Notebook.notebook Samples.world_no_mode) = Raise StopIteration /\
  outcome (HreaNotebook.notebook Samples.world_empty)
  = Raise (ValueError "not enough values to unpack (expected 1, got 0)").
Proof.
  split; [|split].
  - apply (proj1 (C1_empty_search_raises Samples.world_empty)). reflexivity.
  - eapply (proj1 (proj2 (C1_empty_search_raises Samples.world_no_mode))).
    + reflexivity.
    + vm_compute. reflexivity.
  - apply (proj2 (proj2 (C1_empty_search_raises Samples.world_empty))). reflexivity.
Defined.

(** **** C2 *)

(** C2, as stated, fails: with two matching items the unpacking of the
    HREA notebook raises, because the count differs from the expected one. *)
Lemma C2_counterexample :
  length (filter HreaSteps.is_djibouti [Samples.djibouti_2018; Samples.djibouti_2019]) = 2
  /\ HreaSteps.select_djibouti [Samples.djibouti_2018; Samples.djibouti_2019]
     = Raise (ValueError "too many values to unpack (expected 1)").
Proof. split; reflexivity. Qed.

Lemma data_assets_of_ok_iff (l : list (string * asset)) :
  is_ok (HreaSteps.data_assets_of l) = true
  <-> Forall (fun ka => roles (snd ka) <> None) l.
Proof.
  induction l as [|[k a] l IH]; simpl.
  - split; [constructor | reflexivity].
  - destruct (roles a) as [rs|] eqn:Hr.
    + destruct (HreaSteps.data_assets_of l) as [lines|e]; simpl in *.
      * split; [|reflexivity]. intros _. constructor.
        -- cbn. rewrite Hr. discriminate.
        -- now apply IH.
      * split; [discriminate|]. intros H. apply Forall_inv_tail in H.
        now apply IH in H.
    + split; [discriminate|]. intros H. apply Forall_inv in H.
      cbn in H. now rewrite Hr in H.
Qed.

Lemma data_assets_of_raise (l : list (string * asset)) (e : exn) :
  HreaSteps.data_assets_of l = Raise e ->
  e = TypeError "argument of type 'NoneType' is not iterable".
Proof.
  induction l as [|[k a] l IH]; simpl; [discriminate|].
  destruct (roles a) as [rs|].
  - destruct (HreaSteps.data_assets_of l) as [lines|e']; [discriminate|].
    intros [= <-]. now apply IH.
  - now intros [= <-].
Qed.

Lemma select_window_ok_iff (windows : list (HreaSteps.grid_pos * HreaSteps.window)) :
  (3 <= length windows <-> is_ok (HreaSteps.select_window windows) = true)
  /\ (length windows < 3 <-> HreaSteps.select_window windows = Raise IndexError).
Proof.
  destruct windows as [|w0 [|w1 [|[pos w2] rest]]]; simpl; repeat split;
    intros H; try lia; try reflexivity; try discriminate.
Qed.

(** C2, amended: the notebook code enforces no invariant beyond what its
    own selection idioms need in order to run.  The single-element
    unpacking of the HREA notebook succeeds exactly when one item id
    contains "Djibouti" and raises [ValueError] for any other count;
    [items[0]] and [next(gen)] raise exactly on an empty result and
    otherwise take the first element; [windows[i_window]] raises
    [IndexError] exactly when the file has fewer than three block
    windows; the Djibouti comprehension of cell 8 keeps any number of
    matches; and the data-asset filter of cell 4 takes any number of
    assets, raising only ([TypeError]) on an asset without roles. *)
Theorem C2_unpacking_checks_count (items : list item)
  (windows : list (HreaSteps.grid_pos * HreaSteps.window)) (x : item) :
  (forall y, HreaSteps.select_djibouti items = Ok y
             <-> filter HreaSteps.is_djibouti items = [y])
  /\ (length (filter HreaSteps.is_djibouti items) <> 1
      <-> exists msg, HreaSteps.select_djibouti items = Raise (ValueError msg))
  /\ (items = [] <-> getitem items 0 = Raise IndexError)
  /\ (forall y rest, items = y :: rest -> getitem items 0 = Ok y)
  /\ (items = [] <-> next items = Raise StopIteration)
  /\ (forall y rest, items = y :: rest -> next items = Ok (y, rest))
  /\ (length windows < 3 <-> HreaSteps.select_window windows = Raise IndexError)
  /\ (3 <= length windows <-> is_ok (HreaSteps.select_window windows) = true)
  /\ length (HreaSteps.djibouti_dicts items)
     = length (filter HreaSteps.is_djibouti items)
  /\ (is_ok (HreaSteps.data_assets x) = true
      <-> Forall (fun ka => roles (snd ka) <> None) (assets x))
  /\ (forall e, HreaSteps.data_assets x = Raise e ->
                e = TypeError "argument of type 'NoneType' is not iterable").
Proof.
  unfold HreaSteps.select_djibouti, HreaSteps.djibouti_dicts, HreaSteps.data_assets.
  split; [intros y; apply unpack1_ok|].
  split; [apply unpack1_raise|].
  split; [destruct items; split; intros H; try reflexivity; discriminate|].
  split; [now intros y rest ->|].
  split; [destruct items; split; intros H; try reflexivity; discriminate|].
  split; [now intros y rest ->|].
  split; [apply select_window_ok_iff|].
  split; [apply select_window_ok_iff|].
  split; [now rewrite length_map|].
  split; [apply data_assets_of_ok_iff | apply data_assets_of_raise].
Qed.

Lemma C2_unpacking_checks_count_witness :
  getitem [Samples.djibouti_2018; Samples.djibouti_2019] 0 = Ok Samples.djibouti_2018
  /\ next [Samples.djibouti_2018; Samples.djibouti_2019]
     = Ok (Samples.djibouti_2018, [Samples.djibouti_2019])
  /\ HreaSteps.data_assets FailureSamples.unlabelled_djibouti
     = Raise (TypeError "argument of type 'NoneType' is not iterable").
Proof.
  pose proof (C2_unpacking_checks_count
                [Samples.djibouti_2018; Samples.djibouti_2019]
                FailureSamples.two_windows FailureSamples.unlabelled_djibouti)
    as (_ & _ & _ & Hget & _ & Hnext & _ & _ & _ & _ & Hraise).
  split; [|split].
  - now apply (Hget Samples.djibouti_2018 [Samples.djibouti_2019]).
  - now apply (Hnext Samples.djibouti_2018 [Samples.djibouti_2019]).
  - destruct (HreaSteps.data_assets FailureSamples.unlabelled_djibouti) as [l|e] eqn:E.
    + vm_compute in E. discriminate E.
    + now rewrite (Hraise e eq_refl).
Defined.

(** **** C3 *)



(** **** C4 *)

Lemma bind_ext {A B} (m m' : nb A) (k k' : A -> nb B) (t : list event) :
  m t = m' t -> (forall a u, k a u = k' a u) -> bind m k t = bind m' k' t.
Proof.
  intros Hm Hk. unfold bind. rewrite Hm.
  destruct (m' t) as [[a|e] u]; [apply Hk | reflexivity].
Qed.

Lemma bind_inv_ok {A B} (m : nb A) (k : A -> nb B) (t u : list event) (b : B) :
  bind m k t = (Ok b, u) ->
  exists a t', m t = (Ok a, t') /\ k a t' = (Ok b, u).
Proof.
  unfold bind. destruct (m t) as [[a|e] t'] eqn:Hm; intros H.
  - now exists a, t'.
  - discriminate.
Qed.

Lemma getitem_0_hd {A} (l : list A) :
  getitem l 0 = match hd_error l with Some x => Ok x | None => Raise IndexError end.
Proof. now destruct l. Qed.

Lemma next_hd {A B} (l : list A) (k : A * list A -> nb B) (t : list event) :
  bind (lift (next l)) k t
  = match hd_error l with
    | Some x => k (x, tl l) t
    | None => (Raise StopIteration, t)
    end.
Proof. now destruct l. Qed.

Lemma filter_djibouti_spec (x : item) (l : list item) :
  In x (filter HreaSteps.is_djibouti l)
  <-> In x l /\ exists pre post, id x = (pre ++ "Djibouti" ++ post)%string.
Proof.
  rewrite filter_In. unfold HreaSteps.is_djibouti.
  now rewrite str_in_spec.
Qed.

Lemma sentinel_select_first_ok (w : world) (t u : list event) (x : item) :
  Sentinel1Notebook.select_first w t = (Ok x, u) ->
  nth_error (stac_search w Sentinel1Searches.search_area) 0 = Some x.
Proof.
  unfold Sentinel1Notebook.select_first, bind, emit, ret, lift, getitem.
  destruct (nth_error _ 0) as [y|]; [|discriminate].
  destruct (asset_href y _); [|discriminate].
  intros H; now inversion H.
Qed.

Lemma sentinel_select_mode_ok (w : world) (t u : list event) (x : item) :
  Sentinel1Notebook.select_mode w t = (Ok x, u) ->
  hd_error (stac_search w Sentinel1Searches.search_mode) = Some x.
Proof.
  unfold Sentinel1Notebook.select_mode, bind, emit, ret, lift, next.
  destruct (stac_search w _) as [|y l]; [discriminate|].
  cbn [fst]. destruct (asset_href y _); [|discriminate].
  intros H; now inversion H.
Qed.

Lemma sentinel_with_search (w : world) (f : search_args -> list item) :
  hd_error (f Sentinel1Searches.search_area)
  = hd_error (stac_search w Sentinel1Searches.search_area) ->
  hd_error (f Sentinel1Searches.search_mode)
  = hd_error (stac_search w Sentinel1Searches.search_mode) ->
  forall t, Sentinel1Notebook.notebook (with_search w f) t
            = Sentinel1Notebook.notebook w t.
Proof.
  intros H1 H2 t. unfold Sentinel1Notebook.notebook.
  apply bind_ext.
  - unfold Sentinel1Notebook.cells_1_12. apply bind_ext; [|reflexivity].
    unfold Sentinel1Notebook.select_first, bind, emit, ret, lift.
    cbn [stac_search with_search]. rewrite !getitem_0_hd, H1. reflexivity.
  - intros done u. apply bind_ext; [|reflexivity].
    unfold Sentinel1Notebook.select_mode, bind, emit, ret, lift, next.
    cbn [stac_search with_search].
    destruct (f Sentinel1Searches.search_mode) as [|x l],
             (stac_search w Sentinel1Searches.search_mode) as [|y l'];
      simpl in H2; try discriminate; [reflexivity|].
    now inversion H2.
Qed.

Lemma hrea_with_search (w : world) (f : search_args -> list item) :
  filter HreaSteps.is_djibouti (f HreaSearches.search_2019)
  = filter HreaSteps.is_djibouti (stac_search w HreaSearches.search_2019) ->
  filter HreaSteps.is_djibouti (f HreaSearches.search_years)
  = filter HreaSteps.is_djibouti (stac_search w HreaSearches.search_years) ->
  forall t, HreaNotebook.notebook (with_search w f) t = HreaNotebook.notebook w t.
Proof.
  intros H1 H2 t. unfold HreaNotebook.notebook.
  apply bind_ext.
  - unfold HreaNotebook.select_item, bind, emit, ret, lift, HreaSteps.select_djibouti.
    cbn [stac_search with_search]. now rewrite H1.
  - intros x u. apply bind_ext; [reflexivity|].
    intros rs u'. apply bind_ext; [|reflexivity].
    unfold HreaNotebook.change_over_time, bind, emit, ret, lift, HreaSteps.djibouti_dicts.
    cbn [stac_search stack_quantile with_search]. now rewrite H2.
Qed.

Lemma hrea_select_item_iff (w : world) (t : list event) (x : item) :
  fst (HreaNotebook.select_item w t) = Ok x
  <-> filter HreaSteps.is_djibouti (stac_search w HreaSearches.search_2019) = [x].
Proof.
  unfold HreaNotebook.select_item, bind, emit, ret, lift, HreaSteps.select_djibouti.
  cbn [fst]. apply unpack1_ok.
Qed.

Lemma hrea_change_over_time_ok (w : world) (t u : list event)
      (later : list json * list F64.float) :
  HreaNotebook.change_over_time w t = (Ok later, u) ->
  fst later = map to_dict (filter HreaSteps.is_djibouti
                                  (stac_search w HreaSearches.search_years)).
Proof.
  unfold HreaNotebook.change_over_time, bind, emit, ret, lift, HreaSteps.djibouti_dicts.
  destruct (stack_quantile w _) as [q|]; [|discriminate].
  destruct (line_plot w q); [|discriminate].
  intros H; now inversion H.
Qed.

(** C4: the Sentinel-1 notebook takes the element at index 0 of the item
    collection and then the first item the generator yields; the HREA
    notebook takes the sub-list of the items whose id contains
    "Djibouti" (unpacked in cell 4, converted to dicts and stacked in
    cell 8).  Nothing else of a search result is used: with a catalog
    that agrees on these items, the notebooks take the same course and
    bind the same values. *)
Theorem C4_item_selection (w : world) (f : search_args -> list item)
  (Harea : hd_error (f Sentinel1Searches.search_area)
           = hd_error (stac_search w Sentinel1Searches.search_area))
  (Hmode : hd_error (f Sentinel1Searches.search_mode)
           = hd_error (stac_search w Sentinel1Searches.search_mode))
  (H2019 : filter HreaSteps.is_djibouti (f HreaSearches.search_2019)
           = filter HreaSteps.is_djibouti (stac_search w HreaSearches.search_2019))
  (Hyears : filter HreaSteps.is_djibouti (f HreaSearches.search_years)
            = filter HreaSteps.is_djibouti (stac_search w HreaSearches.search_years)) :
  run (Sentinel1Notebook.notebook (with_search w f)) = run (Sentinel1Notebook.notebook w)
  /\ run (HreaNotebook.notebook (with_search w f)) = run (HreaNotebook.notebook w)
  /\ (forall x rest t,
        stac_search w Sentinel1Searches.search_area = x :: rest ->
        In "rendered_preview" (map fst (assets x)) ->
        fst (Sentinel1Notebook.select_first w t) = Ok x)
  /\ (forall x rest t,
        stac_search w Sentinel1Searches.search_mode = x :: rest ->
        In "rendered_preview" (map fst (assets x)) ->
        fst (Sentinel1Notebook.select_mode w t) = Ok x)
  /\ (forall x t,
        fst (HreaNotebook.select_item w t) = Ok x
        <-> filter HreaSteps.is_djibouti (stac_search w HreaSearches.search_2019) = [x])
  /\ (forall q t,
        stack_quantile w (map to_dict (filter HreaSteps.is_djibouti
                                              (stac_search w HreaSearches.search_years)))
        = Ok q ->
        line_plot w q = Ok tt ->
        fst (HreaNotebook.change_over_time w t)
        = Ok (map to_dict (filter HreaSteps.is_djibouti
                                  (stac_search w HreaSearches.search_years)), q))
  /\ (forall vs, outcome (Sentinel1Notebook.notebook w) = Ok vs ->
        nth_error (stac_search w Sentinel1Searches.search_area) 0
        = Some (Sentinel1Notebook.v_first_item vs)
        /\ hd_error (stac_search w Sentinel1Searches.search_mode)
           = Some (Sentinel1Notebook.v_item vs))
  /\ (forall vs, outcome (HreaNotebook.notebook w) = Ok vs ->
        filter HreaSteps.is_djibouti (stac_search w HreaSearches.search_2019)
        = [HreaNotebook.v_item vs]
        /\ HreaNotebook.v_items vs
           = map to_dict (filter HreaSteps.is_djibouti
                                 (stac_search w HreaSearches.search_years)))
  /\ (forall x l, In x (filter HreaSteps.is_djibouti l)
                  <-> In x l /\ exists pre post, id x = (pre ++ "Djibouti" ++ post)%string).
Proof.
  split; [now apply sentinel_with_search|].
  split; [now apply hrea_with_search|].
  split.
  { intros x rest t Hitems Hprev.
    destruct (dict_get (assets x) "rendered_preview") as [a|e] eqn:Hget.
    - unfold Sentinel1Notebook.select_first, bind, emit, ret, lift, asset_href.
      rewrite Hitems. cbn [getitem nth_error]. now rewrite Hget.
    - exfalso. clear - Hprev Hget.
      induction (assets x) as [|[k a] l IH]; [contradiction|].
      simpl in Hget, Hprev. destruct (String.eqb_spec k "rendered_preview") as [->|Hne].
      + discriminate.
      + destruct Hprev as [H|H]; [contradiction | now apply IH]. }
  split.
  { intros x rest t Hitems Hprev.
    destruct (dict_get (assets x) "rendered_preview") as [a|e] eqn:Hget.
    - unfold Sentinel1Notebook.select_mode, bind, emit, ret, lift, asset_href.
      rewrite Hitems. cbn [next fst]. now rewrite Hget.
    - exfalso. clear - Hprev Hget.
      induction (assets x) as [|[k a] l IH]; [contradiction|].
      simpl in Hget, Hprev. destruct (String.eqb_spec k "rendered_preview") as [->|Hne].
      + discriminate.
      + destruct Hprev as [H|H]; [contradiction | now apply IH]. }
  split; [intros x t; apply hrea_select_item_iff|].
  split.
  { intros q t Hq Hplot.
    unfold HreaNotebook.change_over_time, bind, emit, ret, lift, HreaSteps.djibouti_dicts.
    now rewrite Hq, Hplot. }
  split.
  { intros vs. unfold outcome, run.
    destruct (Sentinel1Notebook.notebook w []) as [r u] eqn:Hrun.
    cbn [fst]. intros ->.
    unfold Sentinel1Notebook.notebook in Hrun.
    apply bind_inv_ok in Hrun as (done & t1 & Hcells & Hrun).
    apply bind_inv_ok in Hrun as (x' & t2 & Hmode' & Hret).
    unfold ret in Hret. inversion Hret; subst; clear Hret. cbn.
    unfold Sentinel1Notebook.cells_1_12 in Hcells.
    apply bind_inv_ok in Hcells as (x & t0 & Hsel & Hcells).
    apply bind_inv_ok in Hcells as (arrs & t0' & _ & Hret).
    unfold ret in Hret. inversion Hret; subst; clear Hret. cbn.
    split.
    + eapply sentinel_select_first_ok; eassumption.
    + eapply sentinel_select_mode_ok; eassumption. }
  split; [|apply filter_djibouti_spec].
  intros vs. unfold outcome, run.
  destruct (HreaNotebook.notebook w []) as [r u] eqn:Hrun.
  cbn [fst]. intros ->.
  unfold HreaNotebook.notebook in Hrun.
  apply bind_inv_ok in Hrun as (x & t1 & Hsel & Hrun).
  apply bind_inv_ok in Hrun as (rs & t2 & _ & Hrun).
  apply bind_inv_ok in Hrun as (later & t3 & Hlater & Hret).
  unfold ret in Hret. inversion Hret; subst; clear Hret. cbn.
  split.
  - apply (hrea_select_item_iff w [] x). now rewrite Hsel.
  - eapply hrea_change_over_time_ok; eassumption.
Qed.

Lemma C4_item_selection_witness :
  run (Sentinel1Notebook.notebook (with_search Samples.world_ok Samples.catalog_more))
  = run (Sentinel1Notebook.notebook Samples.world_ok)
  /\ run (HreaNotebook.notebook (with_search Samples.world_ok Samples.catalog_more))
     = run (HreaNotebook.notebook Samples.world_ok)
  /\ fst (Sentinel1Notebook.select_first Samples.world_ok [])
     = Ok (Samples.grd_item "S1B_first")
  /\ fst (Sentinel1Notebook.select_mode Samples.world_ok [])
     = Ok (Samples.grd_item "S1A_S3_mode")
  /\ fst (HreaNotebook.select_item Samples.world_ok []) = Ok Samples.djibouti_2019.
Proof.
  pose proof (C4_item_selection Samples.world_ok Samples.catalog_more
                eq_refl eq_refl eq_refl eq_refl)
    as (Hs & Hh & Hfirst & Hmode & Hitem & _).
  split; [exact Hs|]. split; [exact Hh|]. split; [|split].
  - apply (Hfirst _ [Samples.grd_item "S1B_second"] []); [reflexivity | simpl; tauto].
  - apply (Hmode _ [] []); [reflexivity | simpl; tauto].
  - apply Hitem. reflexivity.
Defined.

(** ** Floating-point comparisons, clipping and masking *)

Section FloatFacts.
Import F64 Np.

Lemma ltb_leb (a b : float) : ltb a b = true -> leb a b = true.
Proof.
  unfold ltb, leb, SFltb, SFleb.
  now destruct (SFcompare a b) as [[]|].
Qed.

Lemma ltb_not_nan_r (a b : float) : ltb a b = true -> is_nan b = false.
Proof. destruct a, b; try reflexivity; discriminate. Qed.

Lemma pos_not_neg (x : float) : ltb zero x = true -> ltb x zero = false.
Proof. destruct x as [s|s| |s m e]; try destruct s; try reflexivity; discriminate. Qed.

Lemma pos_not_zero (x : float) : ltb zero x = true -> eqb x zero = false.
Proof. destruct x as [s|s| |s m e]; try destruct s; try reflexivity; discriminate. Qed.

(** The mask keeps a value exactly when it is strictly positive. *)
Lemma where_pos_kept (x : float) :
  is_nan (where_pos x) = false -> where_pos x = x /\ ltb zero x = true.
Proof.
  unfold where_pos. destruct (ltb zero x) eqn:H; [now split | discriminate].
Qed.

Lemma where_pos_masked (x : float) :
  ltb zero x = false -> where_pos x = nan.
Proof. unfold where_pos. now intros ->. Qed.

(** Clipping to [0, 1]: NaN stays NaN, everything else lands in [0, 1]. *)
Lemma clip_unit_nan (x : float) :
  is_nan (clip (of_Z 0) (of_Z 1) x) = is_nan x.
Proof.
  unfold clip, npy_min, npy_max.
  destruct (is_nan x) eqn:Hx.
  - now rewrite Hx.
  - destruct (ltb (of_Z 0) x) eqn:H0.
    + rewrite Hx. now destruct (ltb x (of_Z 1)).
    + reflexivity.
Qed.

Lemma clip_unit_range (x : float) :
  is_nan x = false ->
  leb zero (clip (of_Z 0) (of_Z 1) x) = true
  /\ leb (clip (of_Z 0) (of_Z 1) x) one = true.
Proof.
  intros Hx. unfold clip, npy_min, npy_max. rewrite Hx.
  destruct (ltb (of_Z 0) x) eqn:H0.
  - rewrite Hx. destruct (ltb x (of_Z 1)) eqn:H1.
    + split; [now apply ltb_leb | now apply ltb_leb].
    + split; reflexivity.
  - split; reflexivity.
Qed.

End FloatFacts.

(** ** Indexing into mapped, zipped and reversed arrays *)

Section ArrayFacts.
Import F64 Arr.

Lemma get2_map (f : float -> float) (a : grid) (i j : nat) :
  get2 (grid_map f a) i j = option_map f (get2 a i j).
Proof.
  unfold get2, grid_map. rewrite nth_error_map.
  destruct (nth_error a i) as [row|]; [apply nth_error_map | reflexivity].
Qed.

Lemma get3_map (f : float -> float) (a : cube) (b i j : nat) :
  get3 (cube_map f a) b i j = option_map f (get3 a b i j).
Proof.
  unfold get3, cube_map. rewrite nth_error_map.
  destruct (nth_error a b) as [g|]; [apply get2_map | reflexivity].
Qed.

Lemma nth_error_zip_with {A B C} (f : A -> B -> C) (l : list A) (m : list B)
      (n : nat) (x : A) (y : B) :
  nth_error l n = Some x -> nth_error m n = Some y ->
  nth_error (zip_with f l m) n = Some (f x y).
Proof.
  revert l m; induction n as [|n IH]; intros [|a l] [|b m]; simpl;
    try discriminate.
  - now intros [= ->] [= ->].
  - apply IH.
Qed.

Lemma get2_map2 (f : float -> float -> float) (a b : grid) (i j : nat)
      (x y : float) :
  get2 a i j = Some x -> get2 b i j = Some y ->
  get2 (grid_map2 f a b) i j = Some (f x y).
Proof.
  unfold get2, grid_map2.
  destruct (nth_error a i) as [ra|] eqn:Ha; [|discriminate].
  destruct (nth_error b i) as [rb|] eqn:Hb; [|discriminate].
  intros Hx Hy.
  rewrite (nth_error_zip_with (zip_with f) a b i Ha Hb).
  now apply nth_error_zip_with.
Qed.

Lemma nth_error_rev_lt {A} (l : list A) (n : nat) :
  n < length l -> nth_error (rev l) n = nth_error l (length l - 1 - n).
Proof.
  intros H. rewrite nth_error_rev.
  destruct (Nat.ltb_spec n (length l)); [|lia].
  f_equal; lia.
Qed.

End ArrayFacts.

(** **** C5 *)

(** A value clipped to [0, 1] and then masked where not above 0, spelled
    out case by case. *)
Lemma clip_mask_cases (q : F64.float) :
  (F64.ltb F64.zero q = false ->
   Np.where_pos (Np.clip (F64.of_Z 0) (F64.of_Z 1) q) = F64.nan)
  /\ (F64.ltb F64.zero q = true -> F64.ltb q F64.one = true ->
      Np.where_pos (Np.clip (F64.of_Z 0) (F64.of_Z 1) q) = q)
  /\ (F64.ltb F64.zero q = true -> F64.ltb q F64.one = false ->
      Np.where_pos (Np.clip (F64.of_Z 0) (F64.of_Z 1) q) = F64.one).
Proof.
  unfold Np.clip, Np.npy_min, Np.npy_max.
  change (F64.ltb (F64.of_Z 0) q) with (F64.ltb F64.zero q).
  change (F64.of_Z 1) with F64.one.
  split; [|split].
  - intros H0. rewrite H0. destruct (F64.is_nan q) eqn:Hn.
    + rewrite Hn. unfold Np.where_pos. now rewrite H0.
    + reflexivity.
  - intros H0 H1. rewrite (ltb_not_nan_r _ _ H0), H0, (ltb_not_nan_r _ _ H0), H1.
    unfold Np.where_pos. now rewrite H0.
  - intros H0 H1. rewrite (ltb_not_nan_r _ _ H0), H0, (ltb_not_nan_r _ _ H0), H1.
    reflexivity.
Qed.

(** C5: for two polarization arrays over the same H x W grid the
    composite has exactly three bands, and at every pixel they hold, in
    order, vv / 600, vh / 270 and (vv / vh) / 9, each clipped to [0, 1]
    and masked where not strictly greater than 0: NaN where the quotient
    is not above 0 (or is NaN), the quotient itself where it lies
    strictly between 0 and 1, and 1 from 1 upwards. *)
Theorem C5_false_color_composite (vv vh : Arr.grid) (H W i j : nat) (x y : F64.float)
  (Hshape_vv : Arr.has_shape H W [vv]) (Hshape_vh : Arr.has_shape H W [vh])
  (Hvv : Arr.get2 vv i j = Some x) (Hvh : Arr.get2 vh i j = Some y) :
  let clipped_masked (q r : F64.float) :=
      (F64.ltb F64.zero q = false -> r = F64.nan)
      /\ (F64.ltb F64.zero q = true -> F64.ltb q F64.one = true -> r = q)
      /\ (F64.ltb F64.zero q = true -> F64.ltb q F64.one = false -> r = F64.one) in
  length (Sentinel1Transforms.composite vv vh) = 3
  /\ exists r g b,
      Arr.get3 (Sentinel1Transforms.composite vv vh) 0 i j = Some r
      /\ Arr.get3 (Sentinel1Transforms.composite vv vh) 1 i j = Some g
      /\ Arr.get3 (Sentinel1Transforms.composite vv vh) 2 i j = Some b
      /\ clipped_masked (F64.div x (F64.of_Z 600)) r
      /\ clipped_masked (F64.div y (F64.of_Z 270)) g
      /\ clipped_masked (F64.div (F64.div x y) (F64.of_Z 9)) b.
Proof.
  intros clipped_masked. split; [reflexivity|].
  unfold Sentinel1Transforms.composite.
  rewrite !get3_map.
  unfold Arr.get3; cbn [nth_error].
  unfold Sentinel1Transforms.red, Sentinel1Transforms.green, Sentinel1Transforms.blue.
  rewrite !get2_map, Hvv, Hvh.
  rewrite (get2_map2 F64.div vv vh i j Hvv Hvh).
  cbn [option_map].
  eexists _, _, _. repeat (split; [reflexivity|]).
  unfold clipped_masked. repeat split; apply clip_mask_cases.
Qed.

Lemma C5_false_color_composite_witness :
  Arr.get3 (Sentinel1Transforms.composite Samples.vv Samples.vh) 0 0 0
  = Some (F64.div (F64.of_Z 300) (F64.of_Z 600))
  /\ Arr.get3 (Sentinel1Transforms.composite Samples.vv Samples.vh) 1 0 1
     = Some F64.nan
  /\ Arr.get3 (Sentinel1Transforms.composite Samples.vv Samples.vh) 2 1 1
     = Some F64.one.
Proof.
  split; [|split].
  - destruct (@C5_false_color_composite Samples.vv Samples.vh 2 2 0 0 _ _
                ltac:(repeat constructor) ltac:(repeat constructor) eq_refl eq_refl)
      as (_ & r & g & b & Hr & _ & _ & (_ & Hin & _) & _).
    rewrite Hr. f_equal. apply Hin; reflexivity.
  - destruct (@C5_false_color_composite Samples.vv Samples.vh 2 2 0 1 _ _
                ltac:(repeat constructor) ltac:(repeat constructor) eq_refl eq_refl)
      as (_ & r & g & b & _ & Hg & _ & _ & (Hlow & _) & _).
    rewrite Hg. f_equal. apply Hlow; reflexivity.
  - destruct (@C5_false_color_composite Samples.vv Samples.vh 2 2 1 1 _ _
                ltac:(repeat constructor) ltac:(repeat constructor) eq_refl eq_refl)
      as (_ & r & g & b & _ & _ & Hb & _ & _ & (_ & _ & Hhigh)).
    rewrite Hb. f_equal. apply Hhigh; reflexivity.
Defined.

(** **** C6 *)

(** A value clipped to [0, 1], spelled out case by case. *)
Lemma clip_cases (v : F64.float) :
  (F64.is_nan v = true -> F64.is_nan (Np.clip (F64.of_Z 0) (F64.of_Z 1) v) = true)
  /\ (F64.is_nan v = false -> F64.ltb F64.zero v = false ->
      Np.clip (F64.of_Z 0) (F64.of_Z 1) v = F64.zero)
  /\ (F64.ltb F64.zero v = true -> F64.ltb v F64.one = true ->
      Np.clip (F64.of_Z 0) (F64.of_Z 1) v = v)
  /\ (F64.ltb F64.zero v = true -> F64.ltb v F64.one = false ->
      Np.clip (F64.of_Z 0) (F64.of_Z 1) v = F64.one).
Proof.
  unfold Np.clip, Np.npy_min, Np.npy_max.
  change (F64.ltb (F64.of_Z 0) v) with (F64.ltb F64.zero v).
  change (F64.of_Z 1) with F64.one.
  split; [|split; [|split]].
  - intros Hn. now rewrite Hn, Hn.
  - intros Hn H0. now rewrite Hn, H0.
  - intros H0 H1. now rewrite (ltb_not_nan_r _ _ H0), H0, (ltb_not_nan_r _ _ H0), H1.
  - intros H0 H1. now rewrite (ltb_not_nan_r _ _ H0), H0, (ltb_not_nan_r _ _ H0), H1.
Qed.

(** C6: the array rendered by the second plot is the composite reversed
    along its two spatial axes, the band axis in place, and clipped: at
    (b, i, j) it holds the value v of the original at (b, H-1-i, W-1-j)
    clipped to [0, 1], that is NaN for NaN, 0 where v is not above 0, v
    itself strictly between 0 and 1, and 1 from 1 upwards. *)
Theorem C6_flip_spatial_axes (data : Arr.cube) (H W b i j : nat)
  (Hshape : Arr.has_shape H W data)
  (Hb : b < length data) (Hi : i < H) (Hj : j < W) :
  exists v r,
    Arr.get3 data b (H - 1 - i) (W - 1 - j) = Some v
    /\ Arr.get3 (Sentinel1Transforms.flipped data) b i j = Some r
    /\ (F64.is_nan v = true -> F64.is_nan r = true)
    /\ (F64.is_nan v = false -> F64.ltb F64.zero v = false -> r = F64.zero)
    /\ (F64.ltb F64.zero v = true -> F64.ltb v F64.one = true -> r = v)
    /\ (F64.ltb F64.zero v = true -> F64.ltb v F64.one = false -> r = F64.one).
Proof.
  unfold Sentinel1Transforms.flipped. rewrite get3_map.
  unfold Arr.get3, Arr.flip_1_2. rewrite nth_error_map.
  unfold Arr.cube, Arr.grid in *.
  destruct (nth_error data b) as [g|] eqn:Hg;
    [|apply nth_error_None in Hg; lia].
  cbn [option_map].
  unfold Arr.has_shape in Hshape. rewrite Forall_forall in Hshape.
  destruct (Hshape g (nth_error_In _ _ Hg)) as [Hlen Hrows].
  unfold Arr.get2.
  rewrite nth_error_rev_lt by (rewrite length_map; lia).
  rewrite length_map, Hlen, nth_error_map.
  destruct (nth_error g (H - 1 - i)) as [row|] eqn:Hrow;
    [|apply nth_error_None in Hrow; lia].
  cbn [option_map].
  rewrite Forall_forall in Hrows.
  pose proof (Hrows row (nth_error_In _ _ Hrow)) as Hw.
  rewrite nth_error_rev_lt by lia. rewrite Hw.
  destruct (nth_error row (W - 1 - j)) as [v|] eqn:Hv;
    [|apply nth_error_None in Hv; lia].
  exists v, (Np.clip (F64.of_Z 0) (F64.of_Z 1) v).
  split; [reflexivity|]. split; [reflexivity|]. apply clip_cases.
Qed.

Lemma C6_flip_spatial_axes_witness :
  Arr.get3 Samples.light 0 (2 - 1 - 0) (3 - 1 - 1) = Some (F64.of_Z 5)
  /\ Arr.get3 (Sentinel1Transforms.flipped Samples.light) 0 0 1 = Some F64.one.
Proof.
  destruct (@C6_flip_spatial_axes Samples.light 2 3 0 0 1
              ltac:(repeat constructor) ltac:(simpl; lia) ltac:(lia) ltac:(lia))
    as (v & r & Hv & Hr & _ & _ & _ & Hhigh).
  split; [reflexivity|].
  rewrite Hr. f_equal.
  assert (Hv5 : v = F64.of_Z 5) by (vm_compute in Hv; now injection Hv as <-).
  subst v. apply Hhigh; reflexivity.
Defined.

(** **** C10 *)

(** C10: every value of the composite that is not NaN is strictly
    greater than 0 and at most 1; clipping sends positive infinity to 1,
    and the mask turns a zero into NaN. *)
Theorem C10_composite_range (vv vh : Arr.grid) (b i j : nat) (v : F64.float)
  (Hget : Arr.get3 (Sentinel1Transforms.composite vv vh) b i j = Some v)
  (Hv : F64.is_nan v = false) :
  (F64.ltb F64.zero v = true /\ F64.leb v F64.one = true)
  /\ Np.clip (F64.of_Z 0) (F64.of_Z 1) F64.pos_inf = F64.one
  /\ Np.where_pos (Np.clip (F64.of_Z 0) (F64.of_Z 1) F64.zero) = F64.nan.
Proof.
  split; [|split; reflexivity].
  unfold Sentinel1Transforms.composite in Hget.
  rewrite !get3_map in Hget.
  destruct (Arr.get3 _ b i j) as [u|]; [|discriminate].
  cbn [option_map] in Hget. injection Hget as <-.
  apply where_pos_kept in Hv as [Heq Hpos].
  rewrite Heq. split; [exact Hpos|].
  apply clip_unit_range.
  rewrite <- clip_unit_nan. now apply ltb_not_nan_r in Hpos.
Qed.

Lemma C10_composite_range_witness :
  F64.ltb F64.zero F64.one = true /\ F64.leb F64.one F64.one = true.
Proof.
  apply (C10_composite_range Samples.vv Samples.vh 2 1 1 (v := F64.one)).
  - vm_compute. reflexivity.
  - reflexivity.
Defined.

(** **** C7 *)

Section FrameFacts.
Import F64 Np Arr Sentinel1Transforms.

Lemma data_frame_maps (f g : float -> float) (raw : list float) :
  data_frame raw (map f raw) (map g raw)
  = map (fun p => {| power := p; amplitude := f p; dB := g p |}) raw.
Proof. induction raw as [|p raw IH]; simpl; [reflexivity | now rewrite IH]. Qed.



Lemma np_log10_pos (log10_pos : float -> float) (p : float) :
  ltb zero p = true -> np_log10 log10_pos p = log10_pos p.
Proof.
  intros Hp. unfold np_log10.
  rewrite (ltb_not_nan_r _ _ Hp), (pos_not_neg _ Hp), (pos_not_zero _ Hp).
  reflexivity.
Qed.

End FrameFacts.

Section FrameEvalFacts.
Import F64 Np Arr Sentinel1Transforms.
Variable log10_pos : float -> float.

Lemma wide_frame_rows (vv : grid) :
  wide_frame log10_pos vv
  = map (fun p => {| power := p; amplitude := np_sqrt p;
                     dB := mul (of_Z 10) (np_log10 log10_pos p) |})
        (raw_values vv).
Proof.
  unfold wide_frame, frame_eval, apply_ufunc. cbn [fst ufunc_value].
  rewrite map_map. apply data_frame_maps.
Qed.



End FrameEvalFacts.



(** **** C9 *)

(** C9: [windows[i_window]] with [i_window = 2] is the third window of
    the list, whatever the file, as long as the list has three entries;
    for the file of the notebook that is the window at grid position
    (1, 0), not the second window (0, 1). *)
Theorem C9_third_window (windows : list (HreaSteps.grid_pos * HreaSteps.window))
  (data_array : Arr.cube) (Hlen : 3 <= length windows) :
  (exists w0 w1 w2 rest,
      windows = w0 :: w1 :: w2 :: rest
      /\ HreaSteps.select_window windows = Ok (snd w2)
      /\ HreaSteps.read_section windows data_array
         = Ok (HreaSteps.isel_window (snd w2) data_array))
  /\ HreaSteps.block_windows 421 398 256 256 = HreaSteps.recorded_windows
  /\ getitem HreaSteps.recorded_windows HreaSteps.i_window
     = Ok ((1, 0), {| HreaSteps.col_off := 0; HreaSteps.row_off := 256;
                      HreaSteps.width := 256; HreaSteps.height := 165 |})
  /\ getitem HreaSteps.recorded_windows 1
     = Ok ((0, 1), {| HreaSteps.col_off := 256; HreaSteps.row_off := 0;
                      HreaSteps.width := 142; HreaSteps.height := 256 |}).
Proof.
  split; [|repeat split; vm_compute; reflexivity].
  destruct windows as [|w0 [|w1 [|[pos w2] rest]]]; simpl in Hlen; try lia.
  exists w0, w1, (pos, w2), rest. repeat split.
Qed.

Lemma C9_third_window_witness :
  exists w0 w1 w2 rest,
    HreaSteps.recorded_windows = w0 :: w1 :: w2 :: rest
    /\ HreaSteps.select_window HreaSteps.recorded_windows = Ok (snd w2)
    /\ HreaSteps.read_section HreaSteps.recorded_windows Samples.light
       = Ok (HreaSteps.isel_window (snd w2) Samples.light).
Proof.
  apply (C9_third_window HreaSteps.recorded_windows Samples.light).
  simpl; lia.
Defined.

(** * Further properties of the notebook code *)

(** ** Dictionary lookups and the exceptions they raise *)

Lemma dict_get_missing {V} (d : list (string * V)) (k : string) :
  ~ In k (map fst d) -> dict_get d k = Raise (KeyError k).
Proof.
  induction d as [|[k' v] d IH]; simpl; intros H; [reflexivity|].
  destruct (String.eqb_spec k' k) as [->|Hne].
  - exfalso. apply H. now left.
  - apply IH. intros Hin. apply H. now right.
Qed.

Lemma dict_get_present {V} (d : list (string * V)) (k : string) :
  In k (map fst d) -> exists v, dict_get d k = Ok v /\ In (k, v) d.
Proof.
  induction d as [|[k' v] d IH]; simpl; intros H; [contradiction|].
  destruct (String.eqb_spec k' k) as [->|Hne].
  - exists v. split; [reflexivity | now left].
  - destruct H as [H|H]; [contradiction|].
    destruct (IH H) as (v' & Hget & Hin). exists v'. split; [exact Hget | now right].
Qed.

Lemma asset_href_missing (x : item) (k : string) :
  ~ In k (map fst (assets x)) -> asset_href x k = Raise (KeyError k).
Proof. intros H. unfold asset_href. now rewrite (dict_get_missing _ _ H). Qed.

Lemma asset_href_present (x : item) (k : string) :
  In k (map fst (assets x)) -> exists url, asset_href x k = Ok url.
Proof.
  intros H. unfold asset_href.
  destruct (dict_get_present _ _ H) as (a & -> & _). now exists (href a).
Qed.

(** X1: when the first item of the area search has a rendered preview
    and a polarization list but no [vv] asset, the Sentinel-1 notebook
    ends in [KeyError "vv"] right after showing the preview: no raster
    is opened and nothing is transformed or plotted. *)
Theorem sentinel_missing_vv_raises (w : world) (x : item) (rest : list item)
  (Hitems : stac_search w Sentinel1Searches.search_area = x :: rest)
  (Hprev : In "rendered_preview" (map fst (assets x)))
  (Hpol : In "sar:polarizations" (map fst (properties x)))
  (Hvv : ~ In "vv" (map fst (assets x))) :
  run (Sentinel1Notebook.notebook w)
  = (Raise (KeyError "vv"),
     [Configure; Search 1; Select 1; Show "rendered_preview"]).
Proof.
  destruct (asset_href_present x _ Hprev) as (url & Hurl).
  destruct (dict_get_present _ _ Hpol) as (pol & Hget & _).
  unfold run, Sentinel1Notebook.notebook, Sentinel1Notebook.cells_1_12,
    Sentinel1Notebook.select_first, Sentinel1Notebook.process_item,
    bind, emit, ret, lift.
  rewrite Hitems. cbn [getitem nth_error]. rewrite Hurl. cbn [app].
  rewrite Hget. now rewrite (asset_href_missing x "vv" Hvv).
Qed.

Lemma sentinel_missing_vv_raises_witness :
  run (Sentinel1Notebook.notebook FailureSamples.world_hh)
  = (Raise (KeyError "vv"),
     [Configure; Search 1; Select 1; Show "rendered_preview"]).
Proof.
  apply (sentinel_missing_vv_raises FailureSamples.world_hh
           (x := FailureSamples.hh_item) (rest := [])).
  - reflexivity.
  - simpl; tauto.
  - simpl; tauto.
  - simpl. intros [H|[H|[]]]; discriminate.
Defined.

(** ** Reading a window *)

(** X3: when the Djibouti item's assets all have roles and its
    light-composite raster opens and shows, a file with fewer than three
    block windows makes the HREA notebook end in [IndexError] at
    [windows[i_window]]; the section is then never plotted. *)
Theorem hrea_few_windows_raises (w : world) (x : item) (url : string)
  (data_array : Arr.cube) (windows : list (HreaSteps.grid_pos * HreaSteps.window))
  (Hitem : filter HreaSteps.is_djibouti (stac_search w HreaSearches.search_2019) = [x])
  (Hroles : Forall (fun ka => roles (snd ka) <> None) (assets x))
  (Hurl : asset_href x "light-composite" = Ok url)
  (Hopen : open_rasterio w url = Ok data_array)
  (Hshow : show w data_array "Djibouti (2019)" = Ok tt)
  (Hwin : file_block_windows w url = Ok windows)
  (Hfew : length windows < 3) :
  outcome (HreaNotebook.notebook w) = Raise IndexError
  /\ ~ In (Plot "section") (trace (HreaNotebook.notebook w))
  /\ HreaSteps.read_section windows data_array = Raise IndexError.
Proof.
  apply select_window_ok_iff in Hfew.
  assert (Hread : HreaSteps.read_section windows data_array = Raise IndexError)
    by (unfold HreaSteps.read_section; now rewrite Hfew).
  apply data_assets_of_ok_iff in Hroles.
  destruct (HreaSteps.data_assets_of (assets x)) as [lines|] eqn:Hlines;
    [|discriminate].
  unfold outcome, trace, run, HreaNotebook.notebook, HreaNotebook.select_item,
    HreaNotebook.process_item, bind, emit, ret, lift, HreaSteps.select_djibouti,
    HreaSteps.data_assets.
  rewrite Hitem. cbn [unpack1]. rewrite Hlines, Hurl, Hopen, Hshow, Hwin, Hread.
  cbn. repeat split; try reflexivity.
  intros H. repeat (destruct H as [H|H]; [discriminate H|]). exact H.
Qed.

Lemma hrea_few_windows_raises_witness :
  outcome (HreaNotebook.notebook FailureSamples.world_two_blocks) = Raise IndexError
  /\ ~ In (Plot "section") (trace (HreaNotebook.notebook FailureSamples.world_two_blocks))
  /\ HreaSteps.read_section FailureSamples.two_windows Samples.light = Raise IndexError.
Proof.
  apply (@hrea_few_windows_raises FailureSamples.world_two_blocks
           Samples.djibouti_2019 (href (Samples.tif "light-composite"))).
  - reflexivity.
  - repeat constructor; discriminate.
  - reflexivity.
  - reflexivity.
  - reflexivity.
  - reflexivity.
  - vm_compute. lia.
Defined.

Lemma nth_error_slice {A} (lo len : nat) (l : list A) (i : nat) :
  nth_error (Arr.slice lo len l) i
  = if Nat.ltb i len then nth_error l (lo + i) else None.
Proof.
  unfold Arr.slice. rewrite nth_error_firstn.
  destruct (Nat.ltb i len); [apply nth_error_skipn | reflexivity].
Qed.

Lemma length_slice {A} (lo len : nat) (l : list A) :
  length (Arr.slice lo len l) = Nat.min len (length l - lo).
Proof. unfold Arr.slice. now rewrite length_firstn, length_skipn. Qed.

Lemma in_slice {A} (lo len : nat) (l : list A) (x : A) :
  In x (Arr.slice lo len l) -> In x l.
Proof.
  unfold Arr.slice. intros H.
  rewrite <- (firstn_skipn lo l). apply in_or_app. right.
  rewrite <- (firstn_skipn len (skipn lo l)). apply in_or_app. now left.
Qed.

(** X4: the section read through a window holds, at (b, i, j) inside the
    window, the value of the array at (b, row_off + i, col_off + j), and
    holds nothing outside the window's height and width. *)
Theorem isel_window_index (win : HreaSteps.window) (a : Arr.cube) (b i j : nat) :
  Arr.get3 (HreaSteps.isel_window win a) b i j
  = if Nat.ltb i (HreaSteps.height win) && Nat.ltb j (HreaSteps.width win)
    then Arr.get3 a b (HreaSteps.row_off win + i) (HreaSteps.col_off win + j)
    else None.
Proof.
  unfold Arr.get3, HreaSteps.isel_window. rewrite nth_error_map.
  unfold Arr.cube, Arr.grid in *.
  destruct (nth_error a b) as [g|]; cbn [option_map];
    [|now destruct (_ && _)].
  unfold Arr.get2. rewrite nth_error_map, nth_error_slice.
  destruct (Nat.ltb i (HreaSteps.height win)); cbn [andb option_map]; [|reflexivity].
  destruct (nth_error g (HreaSteps.row_off win + i)) as [row|]; cbn [option_map].
  - apply nth_error_slice.
  - now destruct (Nat.ltb j (HreaSteps.width win)).
Qed.

Lemma isel_window_has_shape (win : HreaSteps.window) (a : Arr.cube) (H W : nat) :
  Arr.has_shape H W a ->
  Arr.has_shape (Nat.min (HreaSteps.height win) (H - HreaSteps.row_off win))
                (Nat.min (HreaSteps.width win) (W - HreaSteps.col_off win))
                (HreaSteps.isel_window win a).
Proof.
  intros Hshape.
  unfold Arr.has_shape, HreaSteps.isel_window in *.
  rewrite Forall_map. rewrite Forall_forall in *.
  intros g Hg. destruct (Hshape g Hg) as [Hlen Hrows].
  split.
  - now rewrite length_map, length_slice, Hlen.
  - rewrite Forall_map, Forall_forall. intros row Hrow.
    rewrite length_slice. rewrite Forall_forall in Hrows.
    rewrite (Hrows row); [reflexivity|].
    now apply in_slice in Hrow.
Qed.

(** X5: on an array of H rows and W columns the section has the
    window's height and width, cut at the bottom and right edges of the
    array as Python slices are; it keeps every band. *)
Theorem isel_window_shape (win : HreaSteps.window) (a : Arr.cube) (H W : nat)
  (Hshape : Arr.has_shape H W a) :
  Arr.has_shape (Nat.min (HreaSteps.height win) (H - HreaSteps.row_off win))
                (Nat.min (HreaSteps.width win) (W - HreaSteps.col_off win))
                (HreaSteps.isel_window win a)
  /\ length (HreaSteps.isel_window win a) = length a.
Proof.
  split; [now apply isel_window_has_shape | apply length_map].
Qed.

Lemma isel_window_shape_witness :
  Arr.has_shape (Nat.min 2 (2 - 1)) (Nat.min 2 (3 - 2))
                (HreaSteps.isel_window FailureSamples.edge_window Samples.light)
  /\ length (HreaSteps.isel_window FailureSamples.edge_window Samples.light)
     = length Samples.light.
Proof.
  apply (isel_window_shape FailureSamples.edge_window (a := Samples.light) (H := 2) (W := 3)).
  repeat constructor.
Defined.

(** ** Flipping and clipping *)

Lemma clip_unit_cases (x : F64.float) :
  Np.clip (F64.of_Z 0) (F64.of_Z 1) x = x
  \/ Np.clip (F64.of_Z 0) (F64.of_Z 1) x = F64.of_Z 1
  \/ Np.clip (F64.of_Z 0) (F64.of_Z 1) x = F64.of_Z 0.
Proof.
  unfold Np.clip, Np.npy_min, Np.npy_max.
  destruct (F64.is_nan x) eqn:Hx.
  - left. now rewrite Hx.
  - destruct (F64.ltb (F64.of_Z 0) x) eqn:H0.
    + rewrite Hx. destruct (F64.ltb x (F64.of_Z 1)); [now left | right; now left].
    + right; right. reflexivity.
Qed.

Lemma clip_unit_idempotent (x : F64.float) :
  Np.clip (F64.of_Z 0) (F64.of_Z 1) (Np.clip (F64.of_Z 0) (F64.of_Z 1) x)
  = Np.clip (F64.of_Z 0) (F64.of_Z 1) x.
Proof.
  destruct (clip_unit_cases x) as [H|[H|H]]; rewrite H; [exact H | reflexivity..].
Qed.

Lemma clip_unit_where_pos (x : F64.float) :
  Np.clip (F64.of_Z 0) (F64.of_Z 1)
          (Np.where_pos (Np.clip (F64.of_Z 0) (F64.of_Z 1) x))
  = Np.where_pos (Np.clip (F64.of_Z 0) (F64.of_Z 1) x).
Proof.
  unfold Np.where_pos.
  destruct (F64.ltb F64.zero _); [apply clip_unit_idempotent | reflexivity].
Qed.

Lemma cube_map_flip (f : F64.float -> F64.float) (a : Arr.cube) :
  Arr.cube_map f (Arr.flip_1_2 a) = Arr.flip_1_2 (Arr.cube_map f a).
Proof.
  unfold Arr.cube_map, Arr.flip_1_2, Arr.grid_map. rewrite !map_map.
  apply map_ext. intros g. rewrite map_rev, !map_map. f_equal.
  apply map_ext. intros row. apply map_rev.
Qed.

Lemma cube_map_compose (f g : F64.float -> F64.float) (a : Arr.cube) :
  Arr.cube_map f (Arr.cube_map g a) = Arr.cube_map (fun x => f (g x)) a.
Proof.
  unfold Arr.cube_map, Arr.grid_map. rewrite map_map.
  apply map_ext. intros h. rewrite map_map.
  apply map_ext. intros row. apply map_map.
Qed.

Lemma cube_map_ext (f g : F64.float -> F64.float) (a : Arr.cube) :
  (forall x, f x = g x) -> Arr.cube_map f a = Arr.cube_map g a.
Proof.
  intros H. unfold Arr.cube_map, Arr.grid_map.
  apply map_ext. intros h. apply map_ext. intros row. now apply map_ext.
Qed.

Lemma flip_1_2_involutive (a : Arr.cube) : Arr.flip_1_2 (Arr.flip_1_2 a) = a.
Proof.
  unfold Arr.flip_1_2. rewrite map_map. rewrite <- (map_id a) at 2.
  apply map_ext. intros g.
  rewrite map_rev, rev_involutive, map_map. rewrite <- (map_id g) at 2.
  apply map_ext. intros row. apply rev_involutive.
Qed.

(** X6: flipping the spatial axes twice gives the array back, so that
    applying cell 12's flip-and-clip twice is just one clip; and flipping
    keeps the shape of the array. *)
Theorem flip_twice_restores (a : Arr.cube) (H W : nat) :
  Arr.flip_1_2 (Arr.flip_1_2 a) = a
  /\ Sentinel1Transforms.flipped (Sentinel1Transforms.flipped a)
     = Arr.cube_map (Np.clip (F64.of_Z 0) (F64.of_Z 1)) a
  /\ (Arr.has_shape H W a -> Arr.has_shape H W (Sentinel1Transforms.flipped a)).
Proof.
  split; [apply flip_1_2_involutive | split].
  - unfold Sentinel1Transforms.flipped.
    rewrite !cube_map_flip, flip_1_2_involutive, cube_map_compose.
    apply cube_map_ext, clip_unit_idempotent.
  - unfold Sentinel1Transforms.flipped, Arr.has_shape, Arr.cube_map, Arr.flip_1_2,
      Arr.grid_map.
    rewrite !Forall_map. apply Forall_impl. intros g [Hlen Hrows].
    split.
    + now rewrite length_map, length_rev, length_map.
    + rewrite Forall_map, Forall_forall. intros row Hrow.
      rewrite length_map. apply in_rev in Hrow.
      apply in_map_iff in Hrow as (row0 & <- & Hin).
      rewrite length_rev. rewrite Forall_forall in Hrows. now apply Hrows.
Qed.

Lemma flip_twice_restores_witness :
  Arr.has_shape 2 3 (Sentinel1Transforms.flipped Samples.light).
Proof.
  apply (proj2 (proj2 (flip_twice_restores Samples.light 2 3))).
  repeat constructor.
Defined.

Lemma flipped_composite (vv vh : Arr.grid) :
  Sentinel1Transforms.flipped (Sentinel1Transforms.composite vv vh)
  = Arr.flip_1_2 (Sentinel1Transforms.composite vv vh).
Proof.
  unfold Sentinel1Transforms.flipped, Sentinel1Transforms.composite.
  rewrite cube_map_flip. f_equal.
  rewrite !cube_map_compose. apply cube_map_ext. intros x.
  apply clip_unit_where_pos.
Qed.

(** X7: the composite is already clipped, so the [.clip(0, 1)] of cell 12
    changes nothing: the array of the second plot is exactly the flipped
    composite. *)
Theorem second_clip_is_identity (vv vh : Arr.grid) :
  Sentinel1Transforms.flipped (Sentinel1Transforms.composite vv vh)
  = Arr.flip_1_2 (Sentinel1Transforms.composite vv vh).
Proof. apply flipped_composite. Qed.

(** ** Rounding never produces NaN *)

Section RoundingFacts.
Variables prec emax : Z.

Lemma shr_1_nonneg (mrs : shr_record) :
  (0 <= shr_m mrs)%Z -> (0 <= shr_m (shr_1 mrs))%Z.
Proof.
  destruct mrs as [m r s]. destruct m as [|p|p]; simpl; intros H;
    try lia; destruct p; simpl; lia.
Qed.

Lemma iter_pos_invariant {A} (P : A -> Prop) (f : A -> A) :
  (forall x, P x -> P (f x)) -> forall p x, P x -> P (iter_pos f p x).
Proof.
  intros Hf. induction p as [p IH|p IH|]; intros x Hx; simpl.
  - apply IH, IH, Hf, Hx.
  - apply IH, IH, Hx.
  - apply Hf, Hx.
Qed.

Lemma shr_fexp_nonneg (m e : Z) (l : location) :
  (0 <= m)%Z -> (0 <= shr_m (fst (shr_fexp prec emax m e l)))%Z.
Proof.
  intros Hm. unfold shr_fexp, shr.
  assert (H0 : (0 <= shr_m (shr_record_of_loc m l))%Z)
    by (destruct l as [|[]]; exact Hm).
  destruct (Z.sub _ e) as [|p|p]; cbn [fst]; try exact H0.
  apply (@iter_pos_invariant _ (fun r => (0 <= shr_m r)%Z) shr_1 shr_1_nonneg p _ H0).
Qed.

Lemma round_nearest_even_nonneg (m : Z) (l : location) :
  (0 <= m)%Z -> (0 <= round_nearest_even m l)%Z.
Proof.
  intros Hm. unfold round_nearest_even.
  destruct l as [|[]]; try destruct (Z.even m); lia.
Qed.

Lemma binary_round_aux_not_nan (sx : bool) (m e : Z) (l : location) :
  (0 <= m)%Z -> F64.is_nan (binary_round_aux prec emax sx m e l) = false.
Proof.
  intros Hm. unfold binary_round_aux.
  pose proof (@shr_fexp_nonneg m e l Hm) as H1.
  destruct (shr_fexp prec emax m e l) as [mrs' e']. cbn [fst] in H1.
  pose proof (@shr_fexp_nonneg
                (round_nearest_even (shr_m mrs') (loc_of_shr_record mrs')) e' loc_Exact
                (@round_nearest_even_nonneg _ _ H1)) as H2.
  destruct (shr_fexp prec emax _ e' loc_Exact) as [mrs'' e'']. cbn [fst] in H2.
  destruct (shr_m mrs'') as [|q|q]; [reflexivity| |lia].
  now destruct (Z.leb e'' (Z.sub emax prec)).
Qed.

Lemma SFsqrt_pos_not_nan (x : spec_float) :
  SFltb (S754_zero false) x = true -> F64.is_nan (SFsqrt prec emax x) = false.
Proof.
  destruct x as [s|s| |s m e]; try destruct s; try discriminate; intros _;
    [reflexivity|].
  unfold SFsqrt, SFsqrt_core_binary.
  destruct (Z.sqrtrem _) as [q r] eqn:Hq.
  apply binary_round_aux_not_nan.
  pose proof (Z.sqrtrem_sqrt
                match Z.sub e (Z.mul 2 (Z.min (fexp prec emax (Z.div2 (Z.add (Z.add (Zdigits2 (Zpos m)) e) 1))) (Z.div2 e))) with
                | Z0 => Zpos m
                | Zpos _ => Z.shiftl (Zpos m) (Z.sub e (Z.mul 2 (Z.min (fexp prec emax (Z.div2 (Z.add (Z.add (Zdigits2 (Zpos m)) e) 1))) (Z.div2 e))))
                | Zneg _ => Z0
                end) as Hs.
  rewrite Hq in Hs. cbn [fst] in Hs. rewrite Hs. apply Z.sqrt_nonneg.
Qed.

Lemma SFmul_finite_nan (s : bool) (m : positive) (e : Z) (y : spec_float) :
  F64.is_nan (SFmul prec emax (S754_finite s m e) y) = F64.is_nan y.
Proof.
  destruct y as [sy|sy| |sy my ey]; try reflexivity.
  unfold SFmul. cbn [F64.is_nan]. apply binary_round_aux_not_nan. lia.
Qed.

End RoundingFacts.

(** ** The data frame of cell 8 *)

Lemma mul_ten_nan (y : F64.float) :
  F64.is_nan (F64.mul (F64.of_Z 10) y) = F64.is_nan y.
Proof.
  destruct (F64.of_Z 10) as [s|s| |s m e] eqn:E;
    try (vm_compute in E; discriminate E).
  apply SFmul_finite_nan.
Qed.

Lemma dropna_masked (log10_pos : F64.float -> F64.float) (xs : list F64.float) :
  (forall x, F64.ltb F64.zero x = true -> F64.is_nan (log10_pos x) = false) ->
  Sentinel1Transforms.dropna
    (map (fun p => {| Sentinel1Transforms.power := p;
                      Sentinel1Transforms.amplitude := Np.np_sqrt p;
                      Sentinel1Transforms.dB :=
                        F64.mul (F64.of_Z 10) (Np.np_log10 log10_pos p) |})
         (map Np.where_pos xs))
  = map (fun p => {| Sentinel1Transforms.power := p;
                     Sentinel1Transforms.amplitude := F64.sqrt p;
                     Sentinel1Transforms.dB := F64.mul (F64.of_Z 10) (log10_pos p) |})
        (filter (F64.ltb F64.zero) xs).
Proof.
  intros Hlog. induction xs as [|x xs IH]; [reflexivity|].
  cbn [map filter Sentinel1Transforms.dropna] in *.
  unfold Sentinel1Transforms.row_has_nan at 1.
  cbn [Sentinel1Transforms.power Sentinel1Transforms.amplitude Sentinel1Transforms.dB].
  unfold Np.where_pos at 1 2 3 4 5 6.
  destruct (F64.ltb F64.zero x) eqn:Hx.
  - rewrite mul_ten_nan, (np_log10_pos log10_pos x Hx), (Hlog x Hx).
    rewrite (ltb_not_nan_r _ _ Hx).
    unfold Np.np_sqrt, F64.sqrt. rewrite (SFsqrt_pos_not_nan F64.prec F64.emax x Hx).
    cbn [orb negb map]. f_equal. exact IH.
  - cbn [F64.is_nan F64.nan orb negb]. exact IH.
Qed.

(** X8: when [log10] has a value on every strictly positive argument,
    [dropna] removes exactly the masked pixels: the rows kept are the
    strictly positive pixels in raster order, each with its square root
    and its dB value, and the melted frame has three entries per such
    pixel. *)
Theorem df_keeps_positive_pixels (log10_pos : F64.float -> F64.float) (vv : Arr.grid)
  (Hlog : forall x, F64.ltb F64.zero x = true -> F64.is_nan (log10_pos x) = false) :
  Sentinel1Transforms.dropna (Sentinel1Transforms.wide_frame log10_pos vv)
  = map (fun p => {| Sentinel1Transforms.power := p;
                     Sentinel1Transforms.amplitude := F64.sqrt p;
                     Sentinel1Transforms.dB := F64.mul (F64.of_Z 10) (log10_pos p) |})
        (filter (F64.ltb F64.zero) (Arr.ravel vv))
  /\ length (Sentinel1Transforms.df log10_pos vv)
     = 3 * length (filter (F64.ltb F64.zero) (Arr.ravel vv)).
Proof.
  assert (Hrows : Sentinel1Transforms.dropna (Sentinel1Transforms.wide_frame log10_pos vv)
                  = map (fun p => {| Sentinel1Transforms.power := p;
                                     Sentinel1Transforms.amplitude := F64.sqrt p;
                                     Sentinel1Transforms.dB :=
                                       F64.mul (F64.of_Z 10) (log10_pos p) |})
                        (filter (F64.ltb F64.zero) (Arr.ravel vv))).
  { rewrite wide_frame_rows.
    unfold Sentinel1Transforms.raw_values, Arr.ravel, Arr.grid_map.
    rewrite <- concat_map. now apply dropna_masked. }
  split; [exact Hrows|].
  unfold Sentinel1Transforms.df, Sentinel1Transforms.melt.
  rewrite Hrows, !length_app, !length_map. lia.
Qed.

Lemma df_keeps_positive_pixels_witness :
  length (Sentinel1Transforms.df Samples.log10_stub Samples.vv) = 3 * 3.
Proof.
  apply (proj2 (df_keeps_positive_pixels Samples.log10_stub Samples.vv
                  (fun x H => ltb_not_nan_r _ _ H))).
Defined.

(** ** Zero counts in the composite *)

Lemma composite_pixel (vv vh : Arr.grid) (i j : nat) (x y : F64.float) :
  Arr.get2 vv i j = Some x -> Arr.get2 vh i j = Some y ->
  Arr.get3 (Sentinel1Transforms.composite vv vh) 0 i j
  = Some (Np.where_pos (Np.clip (F64.of_Z 0) (F64.of_Z 1) (F64.div x (F64.of_Z 600))))
  /\ Arr.get3 (Sentinel1Transforms.composite vv vh) 1 i j
     = Some (Np.where_pos (Np.clip (F64.of_Z 0) (F64.of_Z 1) (F64.div y (F64.of_Z 270))))
  /\ Arr.get3 (Sentinel1Transforms.composite vv vh) 2 i j
     = Some (Np.where_pos (Np.clip (F64.of_Z 0) (F64.of_Z 1)
                                   (F64.div (F64.div x y) (F64.of_Z 9)))).
Proof.
  intros Hvv Hvh. unfold Sentinel1Transforms.composite.
  rewrite !get3_map. unfold Arr.get3; cbn [nth_error].
  unfold Sentinel1Transforms.red, Sentinel1Transforms.green, Sentinel1Transforms.blue.
  rewrite !get2_map, Hvv, Hvh, (get2_map2 F64.div vv vh i j Hvv Hvh).
  repeat split.
Qed.

Lemma eqb_zero_inv (x : F64.float) :
  F64.eqb x F64.zero = true -> exists s, x = S754_zero s.
Proof.
  destruct x as [s|s| |s m e]; try destruct s; try discriminate;
    intros _; eexists; reflexivity.
Qed.

(** X9: for two polarization arrays over the same H x W grid, a pixel
    whose vv count is zero is masked (NaN) in the red and the blue band
    whatever vh is, a pixel whose vh count is zero is masked in the green
    band, and a strictly positive vv over a zero vh (a division by zero,
    giving infinity) saturates the blue band at 1. *)
Theorem composite_zero_counts (vv vh : Arr.grid) (H W i j : nat) (x y : F64.float)
  (Hshape_vv : Arr.has_shape H W [vv]) (Hshape_vh : Arr.has_shape H W [vh])
  (Hvv : Arr.get2 vv i j = Some x) (Hvh : Arr.get2 vh i j = Some y) :
  (F64.eqb x F64.zero = true ->
   Arr.get3 (Sentinel1Transforms.composite vv vh) 0 i j = Some F64.nan
   /\ Arr.get3 (Sentinel1Transforms.composite vv vh) 2 i j = Some F64.nan)
  /\ (F64.eqb y F64.zero = true ->
      Arr.get3 (Sentinel1Transforms.composite vv vh) 1 i j = Some F64.nan)
  /\ (F64.ltb F64.zero x = true -> y = F64.zero ->
      Arr.get3 (Sentinel1Transforms.composite vv vh) 2 i j = Some F64.one).
Proof.
  destruct (composite_pixel vv vh i j Hvv Hvh) as (Hr & Hg & Hb).
  rewrite Hr, Hg, Hb. split; [|split].
  - intros Hx. apply eqb_zero_inv in Hx as [s ->]. split.
    + now destruct s.
    + destruct y as [sy|sy| |sy my ey], s; try destruct sy; reflexivity.
  - intros Hy. apply eqb_zero_inv in Hy as [s ->]. now destruct s.
  - intros Hx ->.
    destruct x as [s|s| |s m e]; try destruct s; try discriminate; reflexivity.
Qed.

Lemma composite_zero_counts_witness :
  Arr.get3 (Sentinel1Transforms.composite Samples.vv Samples.vh) 0 0 1 = Some F64.nan
  /\ Arr.get3 (Sentinel1Transforms.composite Samples.vv Samples.vh) 2 1 1 = Some F64.one.
Proof.
  split.
  - apply (proj1 (@composite_zero_counts Samples.vv Samples.vh 2 2 0 1 _ _
                    ltac:(repeat constructor) ltac:(repeat constructor)
                    eq_refl eq_refl)).
    reflexivity.
  - apply (proj2 (proj2 (@composite_zero_counts Samples.vv Samples.vh 2 2 1 1 _ _
                           ltac:(repeat constructor) ltac:(repeat constructor)
                           eq_refl eq_refl)));
      reflexivity.
Defined.

(** ** The table of properties *)

Section TableFacts.
Import Sentinel1Table.

Let key_le (a b : string * json) : Prop := String.leb (fst a) (fst b) = true.

Lemma insert_item_perm (kv : string * json) (l : list (string * json)) :
  Permutation (insert_item kv l) (kv :: l).
Proof.
  induction l as [|kv' l IH]; simpl; [reflexivity|].
  destruct (String.leb (fst kv) (fst kv')); [reflexivity|].
  rewrite IH. apply perm_swap.
Qed.

Lemma insert_item_hd (a kv : string * json) (l : list (string * json)) :
  key_le a kv -> HdRel key_le a l -> HdRel key_le a (insert_item kv l).
Proof.
  intros Ha Hl. destruct l as [|b l]; simpl.
  - now constructor.
  - destruct (String.leb (fst kv) (fst b)); constructor; [exact Ha|].
    now inversion Hl.
Qed.

Lemma insert_item_sorted (kv : string * json) (l : list (string * json)) :
  Sorted key_le l -> Sorted key_le (insert_item kv l).
Proof.
  induction l as [|b l IH]; intros Hs; simpl.
  - repeat constructor.
  - inversion Hs as [|? ? Hl Hb]; subst.
    destruct (String.leb (fst kv) (fst b)) eqn:Hle.
    + constructor; [exact Hs | now constructor].
    + constructor; [now apply IH|].
      apply insert_item_hd; [|exact Hb].
      destruct (String.leb_total (fst kv) (fst b)) as [H|H]; [congruence | exact H].
Qed.

(** X10: the table of cell 5 has one row per property, in ascending
    order of the keys, each showing [str] of the value of its key. *)
Theorem properties_table_sorted (str : json -> string) (d : list (string * json)) :
  Permutation (sorted_items d) d
  /\ Sorted (fun a b => String.leb (fst a) (fst b) = true) (sorted_items d)
  /\ Sorted (fun a b => String.leb (fst a) (fst b) = true) (table_rows str d)
  /\ (forall k v, In (k, v) d <-> In (k, v) (sorted_items d))
  /\ (forall k v, In (k, v) d -> In (k, str v) (table_rows str d))
  /\ length (table_rows str d) = length d.
Proof.
  assert (Hsorted : Sorted key_le (sorted_items d)).
  { induction d as [|kv d IH]; [constructor|].
    cbn [sorted_items fold_right]. apply insert_item_sorted, IH. }
  assert (Hperm : Permutation (sorted_items d) d).
  { clear Hsorted. induction d as [|kv d IH]; [reflexivity|].
    cbn [sorted_items fold_right]. rewrite insert_item_perm. now constructor. }
  repeat split.
  - exact Hperm.
  - exact Hsorted.
  - unfold table_rows. clear Hperm.
    induction Hsorted as [|a l Hl IH Hhd]; [constructor|].
    cbn [map]. constructor; [exact IH|].
    destruct Hhd; constructor. assumption.
  - intros H. now apply (Permutation_in _ (Permutation_sym Hperm)).
  - intros H. now apply (Permutation_in _ Hperm).
  - intros k v H. unfold table_rows.
    apply in_map_iff. exists (k, v). split; [reflexivity|].
    now apply (Permutation_in _ (Permutation_sym Hperm)).
  - unfold table_rows. rewrite length_map. now apply Permutation_length.
Qed.

End TableFacts.

(** ** Selection in the HREA notebook *)

Lemma filter_perm {A} (f : A -> bool) (l l' : list A) :
  Permutation l l' -> Permutation (filter f l) (filter f l').
Proof.
  induction 1 as [|x l l' _ IH|x y l|l l' l'' _ IH1 _ IH2]; simpl.
  - constructor.
  - destruct (f x); [now constructor | exact IH].
  - destruct (f x), (f y); try reflexivity. apply perm_swap.
  - now transitivity (filter f l').
Qed.

Lemma unpack1_perm {A} (l l' : list A) :
  Permutation l l' -> unpack1 l = unpack1 l'.
Proof.
  intros H. pose proof (Permutation_length H) as Hlen.
  destruct l as [|a [|b l]], l' as [|a' [|b' l']]; try discriminate; try reflexivity.
  apply Permutation_length_1 in H. now subst.
Qed.

(** X11: the single-element unpacking does not depend on the order in
    which the catalog returns the items: any reordering of the result
    selects the same item or raises the same exception. *)
Theorem select_djibouti_order_independent (items items' : list item)
  (Hperm : Permutation items items') :
  HreaSteps.select_djibouti items = HreaSteps.select_djibouti items'.
Proof.
  unfold HreaSteps.select_djibouti. apply unpack1_perm. now apply filter_perm.
Qed.

Lemma select_djibouti_order_independent_witness :
  HreaSteps.select_djibouti [Samples.ethiopia_2019; Samples.djibouti_2019]
  = HreaSteps.select_djibouti [Samples.djibouti_2019; Samples.ethiopia_2019].
Proof.
  apply select_djibouti_order_independent. apply perm_swap.
Defined.

Lemma data_assets_of_lines (l : list (string * asset)) (lines : list string) :
  HreaSteps.data_assets_of l = Ok lines ->
  (forall line,
      In line lines
      <-> exists k a rs, In (k, a) l /\ roles a = Some rs /\ In "data" rs
                         /\ line = (k ++ ": " ++ HreaSteps.title_text a)%string)
  /\ length lines <= length l.
Proof.
  revert lines; induction l as [|[k a] l IH]; intros lines;
    cbn [HreaSteps.data_assets_of].
  - intros [= <-]. split; [|simpl; lia]. intros line. split; [contradiction|].
    intros (k & a & rs & [] & _).
  - destruct (roles a) as [rs|] eqn:Hr; [|discriminate].
    destruct (HreaSteps.data_assets_of l) as [rest|]; [|discriminate].
    destruct (IH rest eq_refl) as [Hin Hlen].
    destruct (existsb (String.eqb "data") rs) eqn:Hdata; intros [= <-].
    + split; [|simpl; lia]. intros line. simpl. rewrite Hin. split.
      * intros [<-|(k' & a' & rs' & H & Hrest)].
        -- exists k, a, rs. repeat split; auto.
           apply existsb_exists in Hdata as (r & Hr' & Heq).
           apply String.eqb_eq in Heq. now subst.
        -- exists k', a', rs'. tauto.
      * intros (k' & a' & rs' & [[= <- <-]|H] & Hrest).
        -- now left.
        -- right. exists k', a', rs'. tauto.
    + split; [|simpl; lia]. intros line. rewrite Hin. simpl. split.
      * intros (k' & a' & rs' & H & Hrest). exists k', a', rs'. tauto.
      * intros (k' & a' & rs' & [[= <- <-]|H] & Hrs & Hd & Heq).
        -- exfalso. rewrite Hr in Hrs. injection Hrs as <-.
           assert (existsb (String.eqb "data") rs = true)
             by (apply existsb_exists; exists "data"; split; [exact Hd | reflexivity]).
           congruence.
        -- exists k', a', rs'. tauto.
Qed.

Lemma data_assets_of_no_roles (l : list (string * asset)) :
  Exists (fun ka => roles (snd ka) = None) l ->
  HreaSteps.data_assets_of l
  = Raise (TypeError "argument of type 'NoneType' is not iterable").
Proof.
  intros Hex.
  destruct (HreaSteps.data_assets_of l) as [lines|e] eqn:E.
  - exfalso.
    assert (Hok : is_ok (HreaSteps.data_assets_of l) = true) by now rewrite E.
    apply data_assets_of_ok_iff in Hok.
    apply Exists_exists in Hex as (ka & Hin & Hnone).
    rewrite Forall_forall in Hok. now apply (Hok ka Hin).
  - now rewrite (data_assets_of_raise _ E).
Qed.

(** X12: the list built by cell 4 fails, with [TypeError], exactly when
    an asset of the item has no roles; otherwise it holds "key: title"
    (with "None" for a missing title) for exactly the assets whose roles
    include "data", and has at most as many lines as there are assets. *)
Theorem data_assets_spec (x : item) :
  (forall e, HreaSteps.data_assets x = Raise e
             <-> e = TypeError "argument of type 'NoneType' is not iterable"
                 /\ Exists (fun ka => roles (snd ka) = None) (assets x))
  /\ (forall lines, HreaSteps.data_assets x = Ok lines ->
        (forall line,
            In line lines
            <-> exists k a rs, In (k, a) (assets x) /\ roles a = Some rs
                               /\ In "data" rs
                               /\ line = (k ++ ": " ++ HreaSteps.title_text a)%string)
        /\ length lines <= length (assets x)).
Proof.
  unfold HreaSteps.data_assets. split.
  - intros e. split.
    + intros He. split; [now apply (data_assets_of_raise _ He)|].
      apply Exists_exists.
      assert (Hnot : ~ Forall (fun ka => roles (snd ka) <> None) (assets x)).
      { intros Hall. apply data_assets_of_ok_iff in Hall. now rewrite He in Hall. }
      clear He. induction (assets x) as [|ka l IH].
      * exfalso. apply Hnot. constructor.
      * destruct (roles (snd ka)) as [rs|] eqn:Hr.
        -- destruct IH as (ka' & Hin & Hnone).
           ++ intros Hall. apply Hnot. constructor; [now rewrite Hr | exact Hall].
           ++ exists ka'. split; [now right | exact Hnone].
        -- exists ka. split; [now left | exact Hr].
    + intros [-> Hex]. now apply data_assets_of_no_roles.
  - intros lines. apply data_assets_of_lines.
Qed.

Lemma data_assets_spec_witness :
  In "light-composite: light-composite" ["lightscore: lightscore";
                                          "light-composite: light-composite"].
Proof.
  apply (proj1 (proj2 (data_assets_spec Samples.djibouti_2019)
                  ["lightscore: lightscore"; "light-composite: light-composite"]
                  eq_refl)).
  exists "light-composite", (Samples.tif "light-composite"), ["data"].
  simpl. tauto.
Defined.

(** X13: on the selected Djibouti item, an asset without roles ends the
    HREA notebook in [TypeError] at the data-asset list of cell 4; when
    every asset has roles but there is no "light-composite" asset, it
    ends in [KeyError] for that key.  In both cases no raster is opened. *)
Theorem hrea_missing_asset_raises (w : world) (x : item)
  (Hitem : filter HreaSteps.is_djibouti (stac_search w HreaSearches.search_2019) = [x]) :
  (Exists (fun ka => roles (snd ka) = None) (assets x) ->
   run (HreaNotebook.notebook w)
   = (Raise (TypeError "argument of type 'NoneType' is not iterable"),
      [Configure; Search 1; Select 1]))
  /\ (Forall (fun ka => roles (snd ka) <> None) (assets x) ->
      ~ In "light-composite" (map fst (assets x)) ->
      run (HreaNotebook.notebook w)
      = (Raise (KeyError "light-composite"), [Configure; Search 1; Select 1])).
Proof.
  split.
  - intros Hex.
    unfold run, HreaNotebook.notebook, HreaNotebook.select_item,
      HreaNotebook.process_item, bind, emit, ret, lift, HreaSteps.select_djibouti,
      HreaSteps.data_assets.
    rewrite Hitem. cbn [unpack1].
    now rewrite (data_assets_of_no_roles Hex).
  - intros Hroles Hmiss.
    apply data_assets_of_ok_iff in Hroles.
    destruct (HreaSteps.data_assets_of (assets x)) as [lines|] eqn:Hlines;
      [|discriminate].
    unfold run, HreaNotebook.notebook, HreaNotebook.select_item,
      HreaNotebook.process_item, bind, emit, ret, lift, HreaSteps.select_djibouti,
      HreaSteps.data_assets.
    rewrite Hitem. cbn [unpack1]. rewrite Hlines.
    now rewrite (asset_href_missing x "light-composite" Hmiss).
Qed.

Lemma hrea_missing_asset_raises_witness :
  run (HreaNotebook.notebook FailureSamples.world_bare)
  = (Raise (KeyError "light-composite"), [Configure; Search 1; Select 1])
  /\ run (HreaNotebook.notebook FailureSamples.world_unlabelled)
     = (Raise (TypeError "argument of type 'NoneType' is not iterable"),
        [Configure; Search 1; Select 1]).
Proof.
  split.
  - apply (proj2 (@hrea_missing_asset_raises FailureSamples.world_bare
                    FailureSamples.bare_djibouti eq_refl)).
    + repeat constructor; discriminate.
    + simpl. intros [H|[]]. discriminate.
  - apply (proj1 (@hrea_missing_asset_raises FailureSamples.world_unlabelled
                    FailureSamples.unlabelled_djibouti eq_refl)).
    apply Exists_cons_tl, Exists_cons_hd. reflexivity.
Defined.

(** ** Block windows *)

Lemma block_count_bound (n b j : nat) :
  0 < b -> j < HreaSteps.block_count n b -> j * b < n.
Proof.
  unfold HreaSteps.block_count. intros Hb Hj.
  pose proof (Nat.div_mod_eq n b) as Hdiv.
  pose proof (Nat.mod_upper_bound n b ltac:(lia)) as Hmod.
  destruct (Nat.eqb_spec (n mod b) 0) as [E|E]; nia.
Qed.

Lemma length_flat_map_const {A B C} (g : A -> B -> C) (l1 : list A) (l2 : list B) :
  length (flat_map (fun j => map (g j) l2) l1) = length l1 * length l2.
Proof.
  induction l1 as [|a l1 IH]; simpl; [reflexivity|].
  now rewrite length_app, length_map, IH.
Qed.

(** X14: the block windows of a file tile its block grid: there is one
    window per block, each window starts at its grid position times the
    block size, is non-empty, no larger than a block, and lies inside
    the raster; so a section read through any of them from an array of
    the file's size has exactly the window's height and width. *)
Theorem block_windows_within (h w bh bw : nat) (pos : HreaSteps.grid_pos)
  (win : HreaSteps.window) (a : Arr.cube)
  (Hbh : 0 < bh) (Hbw : 0 < bw)
  (Hin : In (pos, win) (HreaSteps.block_windows h w bh bw))
  (Hshape : Arr.has_shape h w a) :
  length (HreaSteps.block_windows h w bh bw)
  = HreaSteps.block_count h bh * HreaSteps.block_count w bw
  /\ HreaSteps.row_off win = fst pos * bh
  /\ HreaSteps.col_off win = snd pos * bw
  /\ 0 < HreaSteps.height win <= bh
  /\ 0 < HreaSteps.width win <= bw
  /\ HreaSteps.row_off win + HreaSteps.height win <= h
  /\ HreaSteps.col_off win + HreaSteps.width win <= w
  /\ Arr.has_shape (HreaSteps.height win) (HreaSteps.width win)
                   (HreaSteps.isel_window win a).
Proof.
  unfold HreaSteps.block_windows in *.
  split.
  { rewrite length_flat_map_const. now rewrite !length_seq. }
  apply in_flat_map in Hin as (j & Hj & Hin).
  apply in_map_iff in Hin as (i & Heq & Hi).
  apply in_seq in Hj, Hi.
  pose proof (@block_count_bound h bh j Hbh ltac:(lia)) as Hrow.
  pose proof (@block_count_bound w bw i Hbw ltac:(lia)) as Hcol.
  injection Heq as <- <-. cbn [fst snd HreaSteps.row_off HreaSteps.col_off
                                 HreaSteps.height HreaSteps.width].
  repeat split; try lia.
  pose proof (@isel_window_has_shape
                {| HreaSteps.col_off := i * bw; HreaSteps.row_off := j * bh;
                   HreaSteps.width := Nat.min bw (w - i * bw);
                   HreaSteps.height := Nat.min bh (h - j * bh) |} a h w Hshape) as Hs.
  cbn [HreaSteps.row_off HreaSteps.col_off HreaSteps.height HreaSteps.width] in Hs.
  replace (Nat.min (Nat.min bh (h - j * bh)) (h - j * bh))
    with (Nat.min bh (h - j * bh)) in Hs by lia.
  replace (Nat.min (Nat.min bw (w - i * bw)) (w - i * bw))
    with (Nat.min bw (w - i * bw)) in Hs by lia.
  exact Hs.
Qed.

Lemma block_windows_within_witness :
  Arr.has_shape 1 2
    (HreaSteps.isel_window
       {| HreaSteps.col_off := 0; HreaSteps.row_off := 1;
          HreaSteps.width := 2; HreaSteps.height := 1 |} Samples.light).
Proof.
  apply (@block_windows_within 2 3 1 2 (1, 0)
           {| HreaSteps.col_off := 0; HreaSteps.row_off := 1;
              HreaSteps.width := 2; HreaSteps.height := 1 |} Samples.light).
  - lia.
  - lia.
  - vm_compute. tauto.
  - repeat constructor.
Defined.

Lemma properties_table_sorted_witness :
  In ("platform", "SENTINEL-1B")
     (Sentinel1Table.table_rows
        (fun v => match v with JStr t => t | _ => "" end)
        FailureSamples.sample_properties).
Proof.
  apply (proj1 (proj2 (proj2 (proj2 (proj2
           (properties_table_sorted
              (fun v => match v with JStr t => t | _ => "" end)
              FailureSamples.sample_properties))))) "platform" (JStr "SENTINEL-1B")).
  simpl. tauto.
Defined.

(** ** The shape of the composite *)

Lemma length_zip_with {A B C} (f : A -> B -> C) (l : list A) (m : list B) :
  length l = length m -> length (Arr.zip_with f l m) = length l.
Proof.
  revert m; induction l as [|a l IH]; intros [|b m]; simpl; try discriminate;
    [reflexivity|].
  intros [= H]. now rewrite IH.
Qed.

Lemma in_zip_with {A B C} (f : A -> B -> C) (l : list A) (m : list B) (c : C) :
  In c (Arr.zip_with f l m) -> exists a b, In a l /\ In b m /\ c = f a b.
Proof.
  revert m; induction l as [|a l IH]; intros [|b m]; simpl; try contradiction.
  intros [<-|H].
  - exists a, b. auto.
  - destruct (IH m H) as (a' & b' & Ha & Hb & ->). exists a', b'. auto.
Qed.

Lemma grid_map_shape (f : F64.float -> F64.float) (g : Arr.grid) (H W : nat) :
  Arr.has_shape H W [g] -> Arr.has_shape H W [Arr.grid_map f g].
Proof.
  unfold Arr.has_shape, Arr.grid_map. intros Hs.
  apply Forall_inv in Hs as [Hlen Hrows].
  constructor; [|constructor]. split.
  - now rewrite length_map.
  - rewrite Forall_map. eapply Forall_impl; [|exact Hrows].
    intros row Hrow. now rewrite length_map.
Qed.

(** X15: when the two polarization arrays have the same H x W shape, the
    composite has three bands of that shape, and so has the flipped
    array of the second plot. *)
Theorem composite_shape (vv vh : Arr.grid) (H W : nat)
  (Hvv : Arr.has_shape H W [vv]) (Hvh : Arr.has_shape H W [vh]) :
  Arr.has_shape H W (Sentinel1Transforms.composite vv vh)
  /\ length (Sentinel1Transforms.composite vv vh) = 3
  /\ Arr.has_shape H W (Sentinel1Transforms.flipped (Sentinel1Transforms.composite vv vh))
  /\ length (Sentinel1Transforms.flipped (Sentinel1Transforms.composite vv vh)) = 3.
Proof.
  assert (Hblue : Arr.has_shape H W [Arr.grid_map2 F64.div vv vh]).
  { unfold Arr.has_shape, Arr.grid_map2 in *.
    apply Forall_inv in Hvv as [Hlv Hrv]. apply Forall_inv in Hvh as [Hlh Hrh].
    constructor; [|constructor]. split.
    - rewrite length_zip_with; [exact Hlv | congruence].
    - rewrite Forall_forall in *. intros row Hrow.
      apply in_zip_with in Hrow as (ra & rb & Ha & Hb & ->).
      rewrite length_zip_with; [now apply Hrv|].
      rewrite (Hrv ra Ha). symmetry. now apply Hrh. }
  assert (Hcomp : Arr.has_shape H W (Sentinel1Transforms.composite vv vh)).
  { unfold Sentinel1Transforms.composite, Sentinel1Transforms.red,
      Sentinel1Transforms.green, Sentinel1Transforms.blue.
    rewrite cube_map_compose. unfold Arr.cube_map. cbn [map].
    repeat constructor;
      match goal with
      | |- length (Arr.grid_map ?f ?g) = H =>
          apply (Forall_inv (grid_map_shape f (g := g) (H := H) (W := W)
                               ltac:(first [exact Hvv | exact Hvh
                                            | now apply grid_map_shape])))
      | |- Forall _ (Arr.grid_map ?f ?g) =>
          apply (Forall_inv (grid_map_shape f (g := g) (H := H) (W := W)
                               ltac:(first [exact Hvv | exact Hvh
                                            | now apply grid_map_shape])))
      end. }
  repeat split.
  - exact Hcomp.
  - unfold Sentinel1Transforms.flipped, Arr.has_shape, Arr.cube_map, Arr.flip_1_2,
      Arr.grid_map.
    rewrite !Forall_map. revert Hcomp. apply Forall_impl. intros g [Hlen Hrows].
    split.
    + now rewrite length_map, length_rev, length_map.
    + rewrite Forall_map, Forall_forall. intros row Hrow.
      rewrite length_map. apply in_rev in Hrow.
      apply in_map_iff in Hrow as (row0 & <- & Hin).
      rewrite length_rev. rewrite Forall_forall in Hrows. now apply Hrows.
Qed.

Lemma composite_shape_witness :
  Arr.has_shape 2 2 (Sentinel1Transforms.composite Samples.vv Samples.vh).
Proof.
  apply (@composite_shape Samples.vv Samples.vh 2 2); repeat constructor.
Defined.

(** ** The successful run of the Sentinel-1 notebook *)

(** X16: when the first item of the area search carries the preview,
    the two polarization rasters and the two properties read, both
    rasters open over the same H x W grid, the three plots (histograms of the data frame, image
    of the composite, image of the flipped composite) succeed, and the
    mode search yields an item with a preview, the notebook completes;
    the arrays it plots are the data frame and the composite of exactly
    these two rasters (opened at overview level 2) and the flipped
    composite, and [item] ends bound to the first item of the mode
    search.  A plot that raises ends the run with its exception. *)
Theorem sentinel_success_path (w : world) (x x' : item) (rest rest' : list item)
  (url_vv url_vh : string) (vv vh : Arr.grid) (H W : nat)
  (Hshape_vv : Arr.has_shape H W [vv]) (Hshape_vh : Arr.has_shape H W [vh])
  (Hitems : stac_search w Sentinel1Searches.search_area = x :: rest)
  (Hprev : In "rendered_preview" (map fst (assets x)))
  (Hpol : In "sar:polarizations" (map fst (properties x)))
  (Horbit : In "sat:orbit_state" (map fst (properties x)))
  (Hvv : asset_href x "vv" = Ok url_vv)
  (Hvh : asset_href x "vh" = Ok url_vh)
  (Hopen_vv : open_overview w url_vv 2 = Ok vv)
  (Hopen_vh : open_overview w url_vh 2 = Ok vh)
  (Hmode : stac_search w Sentinel1Searches.search_mode = x' :: rest')
  (Hprev' : In "rendered_preview" (map fst (assets x'))) :
  (facet_hist w (Sentinel1Transforms.df (log10_pos w) vv) = Ok tt ->
   imshow w (Some "band") (Sentinel1Transforms.composite vv vh) = Ok tt ->
   imshow w None (Arr.flip_1_2 (Sentinel1Transforms.composite vv vh)) = Ok tt ->
   outcome (Sentinel1Notebook.notebook w)
   = Ok {| Sentinel1Notebook.v_first_item := x;
           Sentinel1Notebook.v_arrays :=
             {| Sentinel1Notebook.v_vv := vv;
                Sentinel1Notebook.v_vh := vh;
                Sentinel1Notebook.v_df := Sentinel1Transforms.df (log10_pos w) vv;
                Sentinel1Notebook.v_data := Sentinel1Transforms.composite vv vh;
                Sentinel1Notebook.v_flipped :=
                  Arr.flip_1_2 (Sentinel1Transforms.composite vv vh) |};
           Sentinel1Notebook.v_item := x' |})
  /\ (forall e,
        facet_hist w (Sentinel1Transforms.df (log10_pos w) vv) = Raise e ->
        outcome (Sentinel1Notebook.notebook w) = Raise e).
Proof.
  destruct (asset_href_present x _ Hprev) as (url & Hurl).
  destruct (asset_href_present x' _ Hprev') as (url' & Hurl').
  destruct (dict_get_present _ _ Hpol) as (pol & Hgpol & _).
  destruct (dict_get_present _ _ Horbit) as (orb & Hgorb & _).
  split.
  - intros Hhist Hdata Hflip.
    unfold outcome, run, Sentinel1Notebook.notebook, Sentinel1Notebook.cells_1_12,
      Sentinel1Notebook.select_first, Sentinel1Notebook.process_item,
      Sentinel1Notebook.select_mode, bind, emit, ret, lift.
    rewrite Hitems, Hmode. cbn [getitem nth_error next fst].
    rewrite Hurl, Hgpol, Hvv, Hopen_vv, Hvh, Hopen_vh, Hhist, Hdata, Hgorb.
    rewrite flipped_composite, Hflip, Hurl'.
    reflexivity.
  - intros e Hhist.
    unfold outcome, run, Sentinel1Notebook.notebook, Sentinel1Notebook.cells_1_12,
      Sentinel1Notebook.select_first, Sentinel1Notebook.process_item,
      bind, emit, ret, lift.
    rewrite Hitems. cbn [getitem nth_error].
    rewrite Hurl, Hgpol, Hvv, Hopen_vv, Hvh, Hopen_vh, Hhist.
    reflexivity.
Qed.

Lemma sentinel_success_path_witness :
  is_ok (outcome (Sentinel1Notebook.notebook Samples.world_ok)) = true
  /\ outcome (Sentinel1Notebook.notebook FailureSamples.world_dark)
     = Raise (ValueError "FacetGrid of an empty frame").
Proof.
  split.
  - rewrite (proj1 (@sentinel_success_path Samples.world_ok
                      (Samples.grd_item "S1B_first") (Samples.grd_item "S1A_S3_mode")
                      [Samples.grd_item "S1B_second"] []
                      (href (Samples.tif "vv")) (href (Samples.tif "vh"))
                      Samples.vv Samples.vh 2 2
                      ltac:(repeat constructor) ltac:(repeat constructor)
                      eq_refl ltac:(simpl; tauto) ltac:(simpl; tauto) ltac:(simpl; tauto)
                      eq_refl eq_refl eq_refl eq_refl eq_refl ltac:(simpl; tauto)));
      reflexivity.
  - apply (proj2 (@sentinel_success_path FailureSamples.world_dark
                    (Samples.grd_item "S1B_first") (Samples.grd_item "S1A_S3_mode")
                    [Samples.grd_item "S1B_second"] []
                    (href (Samples.tif "vv")) (href (Samples.tif "vh"))
                    FailureSamples.dark FailureSamples.dark 2 2
                    ltac:(repeat constructor) ltac:(repeat constructor)
                    eq_refl ltac:(simpl; tauto) ltac:(simpl; tauto) ltac:(simpl; tauto)
                    eq_refl eq_refl eq_refl eq_refl eq_refl ltac:(simpl; tauto))).
    reflexivity.
Defined.
